(** * Aquarius API layer ([aquarius/app/assets.py]) in Rocq

  A shallow embedding of the Flask route handlers of
  [aquarius/app/assets.py].  Python values that travel through the
  handlers (request bodies, stored records) are JSON-shaped values;
  handlers are functions in a small state-and-exception monad over a
  world made of the document store and the sequence of calls made to
  the collaborators the handlers import. *)

From Stdlib Require Import String Ascii List Bool ZArith Lia Arith DecimalString.
Import ListNotations.
Open Scope string_scope.

(** ** Python strings *)

Module PyStr.

(** [s.startswith(p)], by character comparison. *)
Fixpoint startswith (p s : string) : bool :=
  match p with
  | EmptyString => true
  | String a p' =>
      match s with
      | EmptyString => false
      | String b s' => Ascii.eqb a b && startswith p' s'
      end
  end.

(** [s[n:]]. *)
Fixpoint drop (n : nat) (s : string) : string :=
  match n, s with
  | S k, String _ s' => drop k s'
  | _, _ => s
  end.

(** [p in s] for two strings: [p] starts at some position of [s]. *)
Fixpoint occurs (p s : string) : bool :=
  startswith p s ||
  match s with
  | EmptyString => false
  | String _ s' => occurs p s'
  end.

(** The scan of [str.replace] for a non-empty [old]: left to right, every
    leftmost occurrence that does not overlap a previous one is replaced.
    [skip] counts the characters of a matched occurrence still to be
    passed over. *)
Fixpoint replace_go (old new : string) (skip : nat) (s : string) : string :=
  match s with
  | EmptyString => EmptyString
  | String c s' =>
      match skip with
      | S k => replace_go old new k s'
      | O =>
          if startswith old s
          then new ++ replace_go old new (String.length old - 1) s'
          else String c (replace_go old new 0 s')
      end
  end.

(** With an empty [old], Python puts [new] before every character and at
    the end. *)
Fixpoint intersperse (new s : string) : string :=
  match s with
  | EmptyString => new
  | String c s' => new ++ String c (intersperse new s')
  end.

(** [s.replace(old, new)]. *)
Definition replace (s old new : string) : string :=
  match old with
  | EmptyString => intersperse new s
  | String _ _ => replace_go old new 0 s
  end.

(** ASCII case folding of one character: [A]-[Z] to [a]-[z], every other
    byte as it is. *)
Definition lower_ascii (c : ascii) : ascii :=
  let n := nat_of_ascii c in
  if ((65 <=? n)%nat && (n <=? 90)%nat)%bool then ascii_of_nat (n + 32) else c.

(** ASCII case folding of a text: what [str.lower] does on ASCII text.
    The handlers do not use it: they take [str.lower] from the
    collaborators; the in-memory instances below use it in that place. *)
Fixpoint lower (s : string) : string :=
  match s with
  | EmptyString => EmptyString
  | String c s' => String (lower_ascii c) (lower s')
  end.

(** Every non-empty suffix of [p] fails to start [new ++ t], whatever [t]
    is: a prefix of [p] read in a replaced text cannot begin inside an
    inserted [new]. *)
Fixpoint noclash (new p : string) : Prop :=
  match p with
  | EmptyString => True
  | String _ p' =>
      (forall t, startswith p (new ++ t) = false) /\ noclash new p'
  end.

End PyStr.

(** ** The DID escaping of the query handler *)

Definition did_str : string := "did:op:".
Definition esc_did_str : string := "did\\:op\\:".

(** The scans behind the two [replace] calls of lines 195 and 196. *)
Definition unesc (s : string) : string :=
  PyStr.replace_go esc_did_str did_str 0 s.

Definition esc (s : string) : string :=
  PyStr.replace_go did_str esc_did_str 0 s.

(** Lines 195-196 of [es_query_ddo], on the serialised query. *)
Definition escape_dids (querystr : string) : string :=
  let querystr := PyStr.replace querystr esc_did_str did_str in
  PyStr.replace querystr did_str esc_did_str.

(** ** Python values and exceptions *)

Module Py.

(** The exceptions the handlers can meet.  [RuntimeError] stands for any
    exception raised inside a collaborator. *)
Inductive exn : Type :=
| AssertionError (msg : string)
| TypeError (msg : string)
| KeyError (key : string)
| AttributeError (msg : string)
| RuntimeError (msg : string).

(** [str(e)]. *)
Definition str_of_exn (e : exn) : string :=
  match e with
  | AssertionError msg => msg
  | TypeError msg => msg
  | KeyError key => "'" ++ key ++ "'"
  | AttributeError msg => msg
  | RuntimeError msg => msg
  end.

(** The outcome of evaluating a Python expression. *)
Inductive res (A : Type) : Type :=
| Ok (a : A)
| Raise (e : exn).

Arguments Ok {A} a.
Arguments Raise {A} e.

(** JSON-shaped Python values: what [request.json] holds and what the
    document store returns.  Numbers are integers; a [dict] keeps its
    insertion order, as [json.dumps] prints it. *)
#[warnings="-register-all"]
Inductive value : Type :=
| VNone
| VBool (b : bool)
| VInt (n : Z)
| VStr (s : string)
| VList (l : list value)
| VDict (d : list (string * value)).

Definition dict : Type := list (string * value).

(** [bool(v)]. *)
Definition truthy (v : value) : bool :=
  match v with
  | VNone => false
  | VBool b => b
  | VInt n => negb (Z.eqb n 0)
  | VStr s => negb (String.eqb s "")
  | VList l => match l with [] => false | _ :: _ => true end
  | VDict d => match d with [] => false | _ :: _ => true end
  end.

(** [isinstance(v, dict)]. *)
Definition isinstance_dict (v : value) : bool :=
  match v with
  | VDict _ => true
  | _ => false
  end.

Fixpoint dict_get (d : dict) (k : string) : option value :=
  match d with
  | [] => None
  | (k', v) :: d' => if String.eqb k' k then Some v else dict_get d' k
  end.

(** [d[k] = v]: an existing key keeps its place, a new one goes last. *)
Fixpoint dict_set (d : dict) (k : string) (v : value) : dict :=
  match d with
  | [] => [(k, v)]
  | (k', v') :: d' =>
      if String.eqb k' k then (k', v) :: d' else (k', v') :: dict_set d' k v
  end.

Definition dict_mem (d : dict) (k : string) : bool :=
  match dict_get d k with
  | Some _ => true
  | None => false
  end.

(** [d.setdefault(k, v)]: an absent key goes last with the default. *)
Definition dict_setdefault (d : dict) (k : string) (v : value) : dict :=
  if dict_mem d k then d else (d ++ [(k, v)])%list.

(** [v.get(k)] (and [v.get(k, None)]). *)
Definition py_get (v : value) (k : string) : res value :=
  match v with
  | VDict d => Ok (match dict_get d k with Some x => x | None => VNone end)
  | _ => Raise (AttributeError "object has no attribute 'get'")
  end.

(** [v[k]] with a string [k]. *)
Definition py_getitem (v : value) (k : string) : res value :=
  match v with
  | VDict d =>
      match dict_get d k with
      | Some x => Ok x
      | None => Raise (KeyError k)
      end
  | VList _ => Raise (TypeError "list indices must be integers or slices, not str")
  | VStr _ => Raise (TypeError "string indices must be integers")
  | _ => Raise (TypeError "object is not subscriptable")
  end.

(** [v[k] = x] with a string [k]. *)
Definition py_setitem (v : value) (k : string) (x : value) : res value :=
  match v with
  | VDict d => Ok (VDict (dict_set d k x))
  | VList _ => Raise (TypeError "list indices must be integers or slices, not str")
  | _ => Raise (TypeError "object does not support item assignment")
  end.

(** [v.setdefault(k, x)], as the dictionary it leaves behind. *)
Definition py_setdefault (v : value) (k : string) (x : value) : res value :=
  match v with
  | VDict d => Ok (VDict (dict_setdefault d k x))
  | _ => Raise (AttributeError "object has no attribute 'setdefault'")
  end.

(** [k in v] with a string [k]: a key of a dict, an element of a list, a
    substring of a string; other values are not iterable. *)
Definition py_contains (k : string) (v : value) : res bool :=
  match v with
  | VDict d => Ok (dict_mem d k)
  | VList l =>
      Ok (existsb (fun x => match x with VStr s => String.eqb s k | _ => false end) l)
  | VStr s => Ok (PyStr.occurs k s)
  | _ => Raise (TypeError "argument is not iterable")
  end.

End Py.

Import Py.

(** ** Flask requests and responses *)

Record request : Type := mk_request {
  remote_addr : string;   (* request.remote_addr *)
  json : value            (* request.json; [VNone] when there is no body *)
}.

Record response : Type := mk_response {
  body : string;
  status : nat;
  content_type : string
}.

Definition json_content_type : string := "application/json".
Definition text_content_type : string := "text/html; charset=utf-8".

(** [FullTextModel(text, sort, offset, page)]. *)
Record FullTextModel : Type := mk_FullTextModel {
  ftm_text : string;
  ftm_sort : value;
  ftm_offset : value;
  ftm_page : value
}.

(** ** The collaborators of the handlers

    Everything [assets.py] imports and calls: the data-access object, the
    helpers of [aquarius.app.util], the plecos validators, the
    authorisation helpers, the metadata updater, the [json] module,
    Flask's [jsonify] and the [str.lower] of the interpreter. *)

Class Collaborators : Type := {
  (* the state of the document store behind [dao.oceandb] *)
  DB : Type;
  (* a MetadataUpdater object *)
  Updater : Type;
  (* what plecos' error listers return *)
  verrors : Type;

  (* aquarius.app.dao *)
  dao_get_all_listed_assets : DB -> res (list value);
  dao_get : string -> DB -> res value;
  dao_run_es_query : value -> DB -> res (list value * value);
  db_index : string;

  (* aquarius.app.util; [sanitize_record] returns its serialisation and
     leaves the record it was given changed in place *)
  sanitize_record : value -> res (value * string);
  get_metadata_from_services : value -> res value;
  make_paginate_response : list value * value -> FullTextModel -> res value;
  list_errors : (value -> verrors) -> value -> value;

  (* plecos *)
  is_valid_dict_local : value -> bool;
  list_errors_dict_local : value -> verrors;
  is_valid_dict_remote : value -> bool;
  list_errors_dict_remote : value -> verrors;

  (* aquarius.app.auth_util *)
  has_update_request_permission : value -> bool;
  get_signer_address : value -> value -> option string;

  (* aquarius.events.metadata_updater *)
  MetadataUpdater : string -> DB -> res Updater;
  do_single_update : Updater -> value -> DB -> res unit * DB;

  (* json; [json_dumps_default] is [json.dumps(_, default=datetime_converter)] *)
  json_dumps : value -> string;
  json_dumps_default : value -> res string;
  json_loads : string -> res value;

  (* flask: the body [jsonify] writes for a value *)
  jsonify_dumps : value -> string;

  (* builtins: [str.lower], over all of Unicode *)
  str_lower : string -> string
}.

(** [v.lower()]. *)
Definition py_lower `{Collaborators} (v : value) : res string :=
  match v with
  | VStr s => Ok (str_lower s)
  | _ => Raise (AttributeError "object has no attribute 'lower'")
  end.

(** ** Handlers as stateful, fallible computations *)

(** The calls a handler makes that reach outside it. *)
Inductive call : Type :=
| GetAllListedAssets
| DaoGet (did : string)
| RunEsQuery (data : value)
| NewMetadataUpdater (other_db_index : string)
| DoSingleUpdate (asset_record : value)
| LogError (msg : string).

Record world `{Collaborators} : Type := mk_world {
  db : DB;
  calls : list call
}.

Definition M `{Collaborators} (A : Type) : Type := world -> res A * world.

Definition ret `{Collaborators} {A : Type} (a : A) : M A :=
  fun w => (Ok a, w).

Definition bind `{Collaborators} {A B : Type} (m : M A) (k : A -> M B) : M B :=
  fun w =>
    match m w with
    | (Ok a, w') => k a w'
    | (Raise e, w') => (Raise e, w')
    end.

Definition raise `{Collaborators} {A : Type} (e : exn) : M A :=
  fun w => (Raise e, w).

Definition lift `{Collaborators} {A : Type} (r : res A) : M A :=
  fun w => (r, w).

(** [try: m except Exception as e: h e]. *)
Definition try_except `{Collaborators} {A : Type} (m : M A) (h : exn -> M A) : M A :=
  fun w =>
    match m w with
    | (Ok a, w') => (Ok a, w')
    | (Raise e, w') => h e w'
    end.

Declare Scope py_scope.
Delimit Scope py_scope with py.
Notation "x <- m ;; k" := (bind m (fun x => k))
  (at level 61, m at next level, right associativity) : py_scope.
Notation "m ;; k" := (bind m (fun _ => k))
  (at level 61, right associativity) : py_scope.
Open Scope py_scope.

Definition note `{Collaborators} (c : call) (w : world) : world :=
  {| db := db w; calls := calls w ++ [c] |}.

(** A read-only call to the store, recorded. *)
Definition query_db `{Collaborators} {A : Type} (c : call) (f : DB -> res A) : M A :=
  fun w => (f (db w), note c w).

(** A call that may write to the store, recorded. *)
Definition update_db `{Collaborators} {A : Type} (c : call) (f : DB -> res A * DB) : M A :=
  fun w => let '(r, d) := f (db w) in (r, {| db := d; calls := calls w ++ [c] |}).

(** [assert b, msg]. *)
Definition assert_ `{Collaborators} (b : bool) (msg : string) : M unit :=
  if b then ret tt else raise (AssertionError msg).

(** [logger.error(msg)]. *)
Definition logger_error `{Collaborators} (msg : string) : M unit :=
  fun w => (Ok tt, note (LogError msg) w).

(** [Response(body, status, content_type="application/json")]. *)
Definition Response (body : string) (status : nat) : response :=
  {| body := body; status := status; content_type := json_content_type |}.

(** [jsonify(v)], as the response Flask makes of it with [status]. *)
Definition jsonify `{Collaborators} (v : value) (status : nat) : response :=
  {| body := jsonify_dumps v; status := status; content_type := json_content_type |}.

(** A handler returning [(text, status)]: Flask answers with a text body. *)
Definition text_response (text : string) (status : nat) : response :=
  {| body := text; status := status; content_type := text_content_type |}.

Definition not_in_oceandb (did : string) : response :=
  text_response (did ++ " asset DID is not in OceanDB") 404.

(** [jsonify(message="Invalid DDO format."), 400]. *)
Definition invalid_ddo_format `{Collaborators} : response :=
  jsonify (VDict [("message", VStr "Invalid DDO format.")]) 400.

(** [jsonify(error="Unauthorized."), 401]. *)
Definition unauthorized `{Collaborators} : response :=
  jsonify (VDict [("error", VStr "Unauthorized.")]) 401.

(** ** The route handlers of [assets.py] *)

Section Handlers.

Context `{Collaborators}.

(** [[a["id"] for a in asset_with_id if "id" in a]]. *)
Fixpoint ids_of (asset_with_id : list value) : res (list value) :=
  match asset_with_id with
  | [] => Ok []
  | a :: rest =>
      match py_contains "id" a with
      | Raise e => Raise e
      | Ok false => ids_of rest
      | Ok true =>
          match py_getitem a "id" with
          | Raise e => Raise e
          | Ok i =>
              match ids_of rest with
              | Raise e => Raise e
              | Ok l => Ok (i :: l)
              end
          end
      end
  end.

(** [for r in records: sanitize_record(r)]: the records as the loop leaves
    them. *)
Fixpoint sanitize_each (records : list value) : res (list value) :=
  match records with
  | [] => Ok []
  | r :: rest =>
      match sanitize_record r with
      | Raise e => Raise e
      | Ok (r', _) =>
          match sanitize_each rest with
          | Raise e => Raise e
          | Ok l => Ok (r' :: l)
          end
      end
  end.

(** [GET ""] *)
Definition get_assets_ids : M response :=
  asset_with_id <- query_db GetAllListedAssets dao_get_all_listed_assets ;;
  asset_ids <- lift (ids_of asset_with_id) ;;
  ret (Response (json_dumps (VList asset_ids)) 200).

(** [GET /ddo/<did>] *)
Definition get_ddo (did : string) : M response :=
  try_except
    (asset_record <- query_db (DaoGet did) (dao_get did) ;;
     sanitized <- lift (sanitize_record asset_record) ;;
     ret (Response (snd sanitized) 200))
    (fun e =>
       logger_error ("get_ddo: " ++ str_of_exn e) ;;
       ret (not_in_oceandb did)).

(** [GET /ddo] *)
Definition get_asset_ddos : M response :=
  _assets <- query_db GetAllListedAssets dao_get_all_listed_assets ;;
  _assets <- lift (sanitize_each _assets) ;;
  dumped <- lift (json_dumps_default (VList _assets)) ;;
  ret (Response dumped 200).

(** [GET /metadata/<did>] *)
Definition get_metadata (did : string) : M response :=
  try_except
    (asset_record <- query_db (DaoGet did) (dao_get did) ;;
     service <- lift (py_getitem asset_record "service") ;;
     metadata <- lift (get_metadata_from_services service) ;;
     sanitized <- lift (sanitize_record metadata) ;;
     ret (Response (snd sanitized) 200))
    (fun e =>
       logger_error ("get_metadata: " ++ str_of_exn e) ;;
       ret (not_in_oceandb did)).

(** [POST /ddo/query] *)
Definition es_query_ddo (request : request) : M response :=
  assert_ (isinstance_dict (json request)) "invalid payload format." ;;
  let data := json request in
  query <- lift (py_get data "query") ;;
  has_query_string <- lift (py_contains "query_string" query) ;;
  assert_ has_query_string "No query_string found." ;;
  let querystr := json_dumps query in
  escaped <- lift (json_loads (escape_dids querystr)) ;;
  data <- lift (py_setitem data "query" escaped) ;;
  data <- lift (py_setdefault data "page" (VInt 1)) ;;
  data <- lift (py_setdefault data "offset" (VInt 100)) ;;
  query_result <- query_db (RunEsQuery data) (dao_run_es_query data) ;;
  sort <- lift (py_get data "sort") ;;
  offset <- lift (py_getitem data "offset") ;;
  page <- lift (py_getitem data "page") ;;
  let search_model := mk_FullTextModel "" sort offset page in
  ddos <- lift (sanitize_each (fst query_result)) ;;
  response <- lift (make_paginate_response (ddos, snd query_result) search_model) ;;
  dumped <- lift (json_dumps_default response) ;;
  ret (Response dumped 200).

(** [POST /ddo/validate] *)
Definition validate (request : request) : M response :=
  assert_ (isinstance_dict (json request)) "invalid payload format." ;;
  let data := json request in
  assert_ (isinstance_dict data) "invalid `body` type, should be formatted as a dict." ;;
  if is_valid_dict_local data
  then ret (jsonify (VBool true) 200)
  else ret (jsonify (list_errors list_errors_dict_local data) 200).

(** [POST /ddo/validate-remote] *)
Definition validate_remote (request : request) : M response :=
  assert_ (isinstance_dict (json request)) "invalid payload format." ;;
  let data := json request in
  assert_ (isinstance_dict data) "invalid `body` type, should be formatted as a dict." ;;
  has_service <- lift (py_contains "service" data) ;;
  if negb has_service
  then ret (jsonify (VDict [("message", VStr "Invalid DDO format.")]) 400)
  else
    service <- lift (py_getitem data "service") ;;
    data <- lift (get_metadata_from_services service) ;;
    has_attributes <- lift (py_contains "attributes" data) ;;
    if negb has_attributes
    then ret (jsonify (VDict [("message", VStr "Invalid DDO format.")]) 400)
    else
      data <- lift (py_getitem data "attributes") ;;
      if is_valid_dict_remote data
      then ret (jsonify (VBool true) 200)
      else ret (jsonify (list_errors list_errors_dict_remote data) 200).

(** [PUT /ddo/update/<did>] *)
Definition update_ddo_info (did : string) (request : request) : M response :=
  assert_ (truthy (json request) && isinstance_dict (json request))
          "invalid payload format." ;;
  let data := json request in
  let reconcile : M response :=
    try_except
      (asset_record <- query_db (DaoGet did) (dao_get did) ;;
       if negb (truthy asset_record)
       then ret (jsonify (VDict [("error", VStr ("Asset " ++ did ++ " not found."))]) 404)
       else
         let _other_db_index := db_index ++ "_plus" in
         updater <- query_db (NewMetadataUpdater _other_db_index)
                             (MetadataUpdater _other_db_index) ;;
         update_db (DoSingleUpdate asset_record) (do_single_update updater asset_record) ;;
         ret (jsonify (VStr "acknowledged.") 200))
      (fun e =>
         logger_error ("get_metadata: " ++ str_of_exn e) ;;
         ret (not_in_oceandb did)) in
  if negb (String.eqb (remote_addr request) "127.0.0.1")
  then
    address <- lift (py_get data "adminAddress") ;;
    if negb (truthy address) || negb (has_update_request_permission address)
    then ret unauthorized
    else
      signature <- lift (py_get data "signature") ;;
      let _address :=
        if truthy signature then get_signer_address address signature else None in
      match _address with
      | None => ret unauthorized
      | Some recovered =>
          if negb (truthy (VStr recovered))
          then ret unauthorized
          else
            lowered <- lift (py_lower address) ;;
            if negb (String.eqb (str_lower recovered) lowered)
            then ret unauthorized
            else reconcile
      end
  else reconcile.

(** [DELETE /ddo/<did>] *)
Definition delist_ddo (did : string) (request : request) : M response :=
  assert_ (truthy (json request) && isinstance_dict (json request))
          "invalid payload format." ;;
  let data := json request in
  address <- lift (py_get data "adminAddress") ;;
  if negb (truthy address) || negb (has_update_request_permission address)
  then ret unauthorized
  else
    signature <- lift (py_get data "signature") ;;
    let _address :=
      if truthy signature then get_signer_address address signature else None in
    match _address with
    | None => ret unauthorized
    | Some recovered =>
        if negb (truthy (VStr recovered))
        then ret unauthorized
        else
          lowered <- lift (py_lower address) ;;
          if negb (String.eqb (str_lower recovered) lowered)
          then ret unauthorized
          else
            try_except
              (asset_record <- query_db (DaoGet did) (dao_get did) ;;
               if negb (truthy asset_record)
               then ret (jsonify (VDict [("error", VStr ("Asset " ++ did ++ " not found."))]) 404)
               else
                 let _other_db_index := db_index ++ "_plus" in
                 updater <- query_db (NewMetadataUpdater _other_db_index)
                                     (MetadataUpdater _other_db_index) ;;
                 update_db (DoSingleUpdate asset_record)
                           (do_single_update updater asset_record) ;;
                 ret (jsonify (VStr "acknowledged.") 200))
              (fun e =>
                 logger_error ("get_metadata: " ++ str_of_exn e) ;;
                 ret (not_in_oceandb did))
    end.

(** The [try] block that ends both write handlers (lines 315-331 and
    350-367), named to state what reaching it means. *)
Definition trigger_reconciliation (did : string) : M response :=
  try_except
    (asset_record <- query_db (DaoGet did) (dao_get did) ;;
     if negb (truthy asset_record)
     then ret (jsonify (VDict [("error", VStr ("Asset " ++ did ++ " not found."))]) 404)
     else
       let _other_db_index := db_index ++ "_plus" in
       updater <- query_db (NewMetadataUpdater _other_db_index)
                           (MetadataUpdater _other_db_index) ;;
       update_db (DoSingleUpdate asset_record) (do_single_update updater asset_record) ;;
       ret (jsonify (VStr "acknowledged.") 200))
    (fun e =>
       logger_error ("get_metadata: " ++ str_of_exn e) ;;
       ret (not_in_oceandb did)).

(** The authorisation rule in the words of the specification (section 4.4):
    the supplied [adminAddress] is on the allow-list and the supplied
    signature recovers to that same address, the two compared after
    [str.lower].  A value is supplied, and an address recovered, when it is
    something Python takes for true. *)
Definition admin_authorized (data : dict) : bool :=
  match dict_get data "adminAddress", dict_get data "signature" with
  | Some (VStr address), Some signature =>
      truthy (VStr address) && has_update_request_permission (VStr address) &&
      truthy signature &&
      match get_signer_address (VStr address) signature with
      | Some recovered =>
          truthy (VStr recovered) &&
          String.eqb (str_lower recovered) (str_lower address)
      | None => false
      end
  | _, _ => false
  end.

(** The data [es_query_ddo] hands to the store once the query has been
    re-read as [escaped]: lines 196-199. *)
Definition query_data (data : dict) (escaped : value) : dict :=
  let data := dict_set data "query" escaped in
  let data := dict_setdefault data "page" (VInt 1) in
  dict_setdefault data "offset" (VInt 100).

(** [FullTextModel("", data.get("sort"), data["offset"], data["page"])]
    (line 203) on a dictionary that holds both keys. *)
Definition search_model_of (data : dict) : FullTextModel :=
  let field k := match dict_get data k with Some x => x | None => VNone end in
  mk_FullTextModel "" (field "sort") (field "offset") (field "page").

(** The routes the blueprint registers, and the handler behind each. *)
Inductive route : Type :=
| GET_root
| GET_ddo_did (did : string)
| GET_ddo
| GET_metadata_did (did : string)
| POST_ddo_query
| POST_ddo_validate
| POST_ddo_validate_remote
| PUT_ddo_update_did (did : string)
| DELETE_ddo_did (did : string).

Definition dispatch (r : route) (request : request) : M response :=
  match r with
  | GET_root => get_assets_ids
  | GET_ddo_did did => get_ddo did
  | GET_ddo => get_asset_ddos
  | GET_metadata_did did => get_metadata did
  | POST_ddo_query => es_query_ddo request
  | POST_ddo_validate => validate request
  | POST_ddo_validate_remote => validate_remote request
  | PUT_ddo_update_did did => update_ddo_info did request
  | DELETE_ddo_did did => delist_ddo did request
  end.

End Handlers.

(** The status of an answer, when there is one. *)
Definition status_of (r : res response) : option nat :=
  match r with
  | Ok resp => Some (status resp)
  | Raise _ => None
  end.

(** ** The metadata updater *)

Module MetadataUpdaterModel.

(** A place in the chain's event log: block number, then log index. *)
Definition position : Type := (nat * nat)%type.

Definition pos_ltb (p q : position) : bool :=
  (fst p <? fst q)%nat || ((fst p =? fst q)%nat && (snd p <? snd q)%nat).

Inductive event_kind : Type :=
| MetadataUpdated (attributes : value)
| MetadataRemoved.

Record event : Type := mk_event {
  ev_position : position;
  ev_kind : event_kind
}.

(** A stored record, with the fields reconciliation reads and writes. *)
Record asset : Type := mk_asset {
  a_id : string;
  a_linkage : option string;     (* dataTokenInfo: the on-chain identifier *)
  a_attributes : value;
  a_isInPurgatory : bool;
  a_marker : position;           (* last processed event *)
  a_dirty : bool                 (* the plus index still has to be brought in line *)
}.

Inductive write : Type :=
| MainPut (did : string)
| PlusPut (did : string)
| PlusDelete (did : string).

Record stores : Type := mk_stores {
  main : list (string * asset);
  plus : list (string * value);
  writes : list write            (* every write issued so far, oldest first *)
}.

Inductive outcome : Type :=
| Success
| NeedsReconciliation
| InvalidRecord
| TransientUnavailable.

Fixpoint lookup {A : Type} (l : list (string * A)) (k : string) : option A :=
  match l with
  | [] => None
  | (k', v) :: l' => if String.eqb k' k then Some v else lookup l' k
  end.

Fixpoint remove {A : Type} (l : list (string * A)) (k : string) : list (string * A) :=
  match l with
  | [] => []
  | (k', v) :: l' => if String.eqb k' k then remove l' k else (k', v) :: remove l' k
  end.

Definition put {A : Type} (l : list (string * A)) (k : string) (v : A) : list (string * A) :=
  (k, v) :: remove l k.

(** The latest event of a log, by position. *)
Fixpoint newest (events : list event) : option event :=
  match events with
  | [] => None
  | e :: rest =>
      match newest rest with
      | None => Some e
      | Some m => if pos_ltb (ev_position m) (ev_position e) then Some e else Some m
      end
  end.

Definition with_dirty (r : asset) (d : bool) : asset :=
  mk_asset (a_id r) (a_linkage r) (a_attributes r) (a_isInPurgatory r) (a_marker r) d.

(** The record an event leads to: a removal sets the purgatory flag, an
    update replaces the attributes; the id and the linkage stay, and the
    marker moves to the event. *)
Definition apply_event (r : asset) (ev : event) : asset :=
  match ev_kind ev with
  | MetadataRemoved =>
      mk_asset (a_id r) (a_linkage r) (a_attributes r) true (ev_position ev) (a_dirty r)
  | MetadataUpdated attributes =>
      mk_asset (a_id r) (a_linkage r) attributes (a_isInPurgatory r) (ev_position ev) (a_dirty r)
  end.

Section Updater.

(** The Chain Event Source: the events of an on-chain identifier, or [None]
    when it cannot be reached. *)
Variable source : string -> option (list event).

(** The fields of the plus index derived from a record's attributes. *)
Variable derive : value -> value.

(** Bring the plus entry of [r] in line with [r]; [None] when the plus index
    refuses the write.  A record without a plus entry needs no write. *)
Definition plus_sync (plus_up : bool) (st : stores) (r : asset) : option stores :=
  match lookup (plus st) (a_id r) with
  | None => Some st
  | Some _ =>
      if plus_up
      then
        Some (if a_isInPurgatory r
              then mk_stores (main st) (remove (plus st) (a_id r))
                             (writes st ++ [PlusDelete (a_id r)])
              else mk_stores (main st) (put (plus st) (a_id r) (derive (a_attributes r)))
                             (writes st ++ [PlusPut (a_id r)]))
      else None
  end.

(** Write [r], marker included, to the main index, then the plus index; a
    refused plus write leaves the record flagged dirty. *)
Definition commit (plus_up : bool) (st : stores) (r : asset) : outcome * stores :=
  let written (d : bool) :=
    mk_stores (put (main st) (a_id r) (with_dirty r d)) (plus st)
              (writes st ++ [MainPut (a_id r)]) in
  match plus_sync plus_up (written false) r with
  | Some st' => (Success, st')
  | None => (NeedsReconciliation, written true)
  end.

(** Modelled from the spec: [MetadataUpdater.do_single_update] of
    [aquarius/events/metadata_updater.py], whose code is not part of the
    sources.  Section 4.2 of the specification: resolve the on-chain
    identifier ([InvalidRecord] without one); ask the Chain Event Source for
    the events ([TransientUnavailable] when it cannot be reached); repair a
    record left dirty before anything else; when no event is newer than the
    record's marker, succeed without writing; otherwise apply the latest
    event (removal sets the purgatory flag, update replaces the attributes)
    and write the record together with the new marker. *)
Definition do_single_update (plus_up : bool) (st : stores) (r : asset) : outcome * stores :=
  match a_linkage r with
  | None => (InvalidRecord, st)
  | Some ident =>
      match source ident with
      | None => (TransientUnavailable, st)
      | Some events =>
          match (if a_dirty r then commit plus_up st r else (Success, st)) with
          | (Success, st1) =>
              let r1 := with_dirty r false in
              match newest events with
              | None => (Success, st1)
              | Some ev =>
                  if pos_ltb (a_marker r1) (ev_position ev)
                  then commit plus_up st1 (apply_event r1 ev)
                  else (Success, st1)
              end
          | failed => failed
          end
      end
  end.

(** A record is settled when it is clean and no event of its log is newer
    than its marker. *)
Definition settled (r : asset) : Prop :=
  a_dirty r = false /\
  exists ident events,
    a_linkage r = Some ident /\ source ident = Some events /\
    match newest events with
    | None => True
    | Some ev => pos_ltb (a_marker r) (ev_position ev) = false
    end.

(** Reconcile the record stored under [did] once for every entry of
    [plus_ups] (the availability of the plus index at each call), taking the
    record from the main index each time as the handlers do. *)
Fixpoint reconcile_many (plus_ups : list bool) (st : stores) (did : string)
  : list outcome * stores :=
  match plus_ups with
  | [] => ([], st)
  | up :: rest =>
      match lookup (main st) did with
      | None => ([], st)
      | Some r =>
          let '(o, st1) := do_single_update up st r in
          let '(os, st2) := reconcile_many rest st1 did in
          (o :: os, st2)
      end
  end.

End Updater.

End MetadataUpdaterModel.

(** ** An in-memory instance of the collaborators

    A small store with one asset, an allow-list with one administrator and
    stand-ins for the helpers, on which the handlers can be run. *)

Module Fixture.

Definition dq : string := String (Ascii.ascii_of_nat 34) EmptyString.

Definition newline : string := String (Ascii.ascii_of_nat 10) EmptyString.

(** A printer in the manner of [json.dumps]. *)
Fixpoint show (v : value) : string :=
  match v with
  | VNone => "null"
  | VBool true => "true"
  | VBool false => "false"
  | VInt n => NilZero.string_of_int (Z.to_int n)
  | VStr s => dq ++ s ++ dq
  | VList l =>
      "[" ++ (fix items (l : list value) : string :=
                match l with
                | [] => ""
                | [x] => show x
                | x :: rest => show x ++ ", " ++ items rest
                end) l ++ "]"
  | VDict d =>
      "{" ++ (fix items (d : list (string * value)) : string :=
                match d with
                | [] => ""
                | [(k, x)] => dq ++ k ++ dq ++ ": " ++ show x
                | (k, x) :: rest => dq ++ k ++ dq ++ ": " ++ show x ++ ", " ++ items rest
                end) d ++ "}"
  end.

Definition sample_query : value :=
  VDict [("query_string", VDict [("query", VStr "did:op:abc")])].

Definition sample_query_escaped : value :=
  VDict [("query_string", VDict [("query", VStr "did\:op\:abc")])].

(** The documents the stand-in for [json.loads] can read back. *)
Definition readable : list (string * value) :=
  [(escape_dids (show sample_query), sample_query_escaped)].

Fixpoint find {A : Type} (l : list (string * A)) (k : string) : option A :=
  match l with
  | [] => None
  | (k', v) :: l' => if String.eqb k' k then Some v else find l' k
  end.

Definition metadata_service : value :=
  VDict [("type", VStr "metadata");
         ("attributes", VDict [("main", VDict [("name", VStr "weather")])])].

Definition sample_asset : value :=
  VDict [("id", VStr "did:op:abc"); ("service", VList [metadata_service])].

Definition sample_db : list (string * value) := [("did:op:abc", sample_asset)].

Definition allow_list : list string := ["0xa11ce"].

Definition is_metadata (service : value) : bool :=
  match service with
  | VDict d =>
      match dict_get d "type" with
      | Some (VStr t) => String.eqb t "metadata"
      | _ => false
      end
  | _ => false
  end.

#[global] Instance collaborators : Collaborators := {|
  DB := list (string * value);
  Updater := string;
  verrors := list string;
  dao_get_all_listed_assets := fun db => Ok (List.map snd db);
  dao_get := fun did db =>
    match find db did with
    | Some r => Ok r
    | None => Raise (RuntimeError "NotFoundError")
    end;
  dao_run_es_query := fun _ db =>
    Ok (List.map snd db, VInt (Z.of_nat (List.length db)));
  db_index := "aquarius";
  sanitize_record := fun r => Ok (r, show r);
  get_metadata_from_services := fun services =>
    match services with
    | VList l =>
        Ok (match List.find is_metadata l with Some s => s | None => VNone end)
    | _ => Raise (TypeError "object is not iterable")
    end;
  make_paginate_response := fun result model =>
    Ok (VDict [("results", VList (fst result)); ("page", ftm_page model);
               ("total_results", snd result)]);
  list_errors := fun lister data => VList (List.map VStr (lister data));
  is_valid_dict_local := fun data => dict_mem (match data with VDict d => d | _ => [] end) "main";
  list_errors_dict_local := fun _ => ["'main' is a required property"];
  is_valid_dict_remote := fun data => dict_mem (match data with VDict d => d | _ => [] end) "main";
  list_errors_dict_remote := fun _ => ["'main' is a required property"];
  has_update_request_permission := fun address =>
    match address with
    | VStr a => existsb (String.eqb (PyStr.lower a)) allow_list
    | _ => false
    end;
  get_signer_address := fun _ signature =>
    match signature with
    | VStr s => if PyStr.startswith "signed-by:" s then Some (PyStr.drop 10 s) else None
    | _ => None
    end;
  MetadataUpdater := fun other_db_index _ => Ok other_db_index;
  do_single_update := fun _ _ db => (Ok tt, db);
  json_dumps := show;
  json_dumps_default := fun v => Ok (show v);
  json_loads := fun s =>
    match find readable s with
    | Some v => Ok v
    | None => Raise (RuntimeError "JSONDecodeError")
    end;
  jsonify_dumps := fun v => show v ++ newline;
  str_lower := PyStr.lower
|}.

Definition w0 : world := {| db := sample_db; calls := [] |}.

(** A remote caller with a body but no credentials. *)
Definition anonymous : request :=
  mk_request "203.0.113.7" (VDict [("note", VStr "refresh")]).

(** The same body, sent from the loopback address. *)
Definition local_job : request :=
  mk_request "127.0.0.1" (VDict [("note", VStr "refresh")]).

(** A remote caller with an empty JSON object as body. *)
Definition empty_body : request := mk_request "203.0.113.7" (VDict []).

(** A remote administrator with a valid signature; the address differs from
    the allow-list entry in case only. *)
Definition admin : request :=
  mk_request "203.0.113.7"
    (VDict [("adminAddress", VStr "0xA11CE"); ("signature", VStr "signed-by:0xa11ce")]).

Definition search : request :=
  mk_request "203.0.113.7" (VDict [("query", sample_query); ("page", VInt 0)]).

(** The scenario of the specification for the updater: a record with marker
    at block 90 and a removal reported at block 100. *)
Definition chain (ident : string)
  : option (list MetadataUpdaterModel.event) :=
  if String.eqb ident "0xAAA"
  then Some [MetadataUpdaterModel.mk_event (100, 0) MetadataUpdaterModel.MetadataRemoved]
  else None.

Definition stored_asset : MetadataUpdaterModel.asset :=
  MetadataUpdaterModel.mk_asset "did:op:abc" (Some "0xAAA") VNone false (90, 0) false.

Definition stores0 : MetadataUpdaterModel.stores :=
  MetadataUpdaterModel.mk_stores [("did:op:abc", stored_asset)]
                                 [("did:op:abc", VNone)] [].

End Fixture.

(** ** Collaborators that misbehave

    The store of [Fixture] behind helpers that go wrong: an allow-list that
    lets every value through, a signature check that always recovers the
    same address, an updater that empties the store and then raises, and a
    [json.loads] that hands its text back as a string. *)

Module Faulty.

Definition collaborators : Collaborators := {|
  DB := list (string * value);
  Updater := string;
  verrors := list string;
  dao_get_all_listed_assets := fun db => Ok (List.map snd db);
  dao_get := fun did db =>
    match Fixture.find db did with
    | Some r => Ok r
    | None => Raise (RuntimeError "NotFoundError")
    end;
  dao_run_es_query := fun _ db =>
    Ok (List.map snd db, VInt (Z.of_nat (List.length db)));
  db_index := "aquarius";
  sanitize_record := fun r =>
    match r with
    | VDict _ => Ok (r, Fixture.show r)
    | _ => Raise (AttributeError "object has no attribute 'pop'")
    end;
  get_metadata_from_services := fun _ => Ok VNone;
  make_paginate_response := fun result model =>
    Ok (VDict [("results", VList (fst result)); ("total_results", snd result)]);
  list_errors := fun lister data => VList (List.map VStr (lister data));
  is_valid_dict_local := fun _ => false;
  list_errors_dict_local := fun _ => ["'main' is a required property"];
  is_valid_dict_remote := fun _ => false;
  list_errors_dict_remote := fun _ => ["'main' is a required property"];
  has_update_request_permission := fun _ => true;
  get_signer_address := fun _ _ => Some "0xa11ce";
  MetadataUpdater := fun other_db_index _ => Ok other_db_index;
  do_single_update := fun _ _ _ => (Raise (RuntimeError "chain unreachable"), []);
  json_dumps := Fixture.show;
  json_dumps_default := fun v => Ok (Fixture.show v);
  json_loads := fun s => Ok (VStr s);
  jsonify_dumps := fun v => Fixture.show v ++ Fixture.newline;
  str_lower := PyStr.lower
|}.

Definition w0 : @world collaborators :=
  @mk_world collaborators Fixture.sample_db [].

(** A remote caller whose adminAddress is a number. *)
Definition numeric_admin : request :=
  mk_request "203.0.113.7"
    (VDict [("adminAddress", VInt 7); ("signature", VStr "anything")]).

(** A search whose query is a string, not an object. *)
Definition string_search : request :=
  mk_request "203.0.113.7" (VDict [("query", VStr "no query_string here")]).

(** A store with a record that cannot be serialised after a good one. *)
Definition mixed_db : list (string * value) :=
  [("did:op:abc", Fixture.sample_asset); ("did:op:bad", VInt 3)].

End Faulty.
(** ** Lemmas on [str.replace] *)

Section ReplaceFacts.

Import PyStr.

Lemma startswith_app (p t : string) : startswith p (p ++ t) = true.
Proof.
  induction p as [|a p IH]; simpl; [reflexivity|].
  now rewrite Ascii.eqb_refl.
Qed.

Lemma startswith_cons (a c : ascii) (p s : string) :
  startswith (String a p) (String c s) = (Ascii.eqb a c && startswith p s)%bool.
Proof. reflexivity. Qed.

Lemma startswith_split (p s : string) :
  startswith p s = true -> s = p ++ drop (String.length p) s.
Proof.
  revert s; induction p as [|a p IH]; intros s H; simpl in *.
  - reflexivity.
  - destruct s as [|b s]; [discriminate|].
    apply andb_prop in H as [Hab Hp].
    apply Ascii.eqb_eq in Hab; subst b.
    simpl. f_equal. now apply IH.
Qed.

Lemma length_app (s t : string) :
  String.length (s ++ t) = String.length s + String.length t.
Proof. induction s; simpl; congruence. Qed.

Lemma drop_app (p t : string) : drop (String.length p) (p ++ t) = t.
Proof. induction p; simpl; auto. Qed.

Lemma replace_go_skip (old new : string) (k : nat) (s : string) :
  replace_go old new k s = replace_go old new 0 (drop k s).
Proof.
  revert s; induction k as [|k IH]; intros s.
  - destruct s; reflexivity.
  - destruct s as [|c s]; [reflexivity|]. simpl. apply IH.
Qed.

Lemma replace_go_hit (old new t : string) :
  old <> EmptyString ->
  replace_go old new 0 (old ++ t) = new ++ replace_go old new 0 t.
Proof.
  destruct old as [|a p]; [congruence|]. intros _.
  cbn [append replace_go].
  change (String a (p ++ t)) with (String a p ++ t).
  rewrite startswith_app. f_equal.
  rewrite replace_go_skip. cbn [String.length Nat.sub].
  rewrite Nat.sub_0_r. now rewrite drop_app.
Qed.

Lemma replace_go_miss (old new : string) (c : ascii) (s : string) :
  startswith old (String c s) = false ->
  replace_go old new 0 (String c s) = String c (replace_go old new 0 s).
Proof. intros H. cbn [replace_go]. now rewrite H. Qed.

(** Induction along the scan: a hit consumes [old], a miss one character. *)
Lemma scan_ind (old : string) (P : string -> Prop) :
  old <> EmptyString ->
  P EmptyString ->
  (forall t, P t -> P (old ++ t)) ->
  (forall c s, startswith old (String c s) = false -> P s -> P (String c s)) ->
  forall s, P s.
Proof.
  intros Hne Hnil Hhit Hmiss s.
  remember (String.length s) as n eqn:Hn.
  revert s Hn. induction n as [n IH] using lt_wf_ind. intros s Hn.
  destruct s as [|c s]; [exact Hnil|].
  destruct (startswith old (String c s)) eqn:Hsw.
  - apply startswith_split in Hsw. rewrite Hsw. apply Hhit.
    apply (IH (String.length (drop (String.length old) (String c s)))); [|reflexivity].
    subst n. rewrite Hsw at 2. rewrite length_app.
    destruct old; [congruence|simpl; lia].
  - apply Hmiss; [exact Hsw|].
    apply (IH (String.length s)); [subst n; simpl; lia|reflexivity].
Qed.

(** A text [p] that cannot begin inside an inserted [new] and starts the
    replaced text already started the original. *)
Lemma startswith_replace_inv (old new p s : string) :
  old <> EmptyString ->
  noclash new p ->
  startswith p (replace_go old new 0 s) = true ->
  startswith p s = true.
Proof.
  intros Hne. revert s. induction p as [|a p IH]; intros s Hnc H.
  - reflexivity.
  - destruct Hnc as [Hhere Hrest].
    destruct s as [|c s]; [discriminate H|].
    destruct (startswith old (String c s)) eqn:Hsw.
    + apply startswith_split in Hsw. rewrite Hsw in H.
      rewrite replace_go_hit in H by exact Hne.
      now rewrite Hhere in H.
    + rewrite replace_go_miss in H by exact Hsw.
      simpl in H. apply andb_prop in H as [Hac Hp].
      simpl. rewrite Hac. simpl. now apply IH.
Qed.

End ReplaceFacts.

Section EscapeDids.

Import PyStr.

Lemma did_str_nonempty : did_str <> EmptyString.
Proof. discriminate. Qed.

Lemma esc_did_str_nonempty : esc_did_str <> EmptyString.
Proof. discriminate. Qed.

(** No part of ["did:op:"] can begin inside an inserted escaped form. *)
Lemma noclash_esc_did : noclash esc_did_str did_str.
Proof. repeat split; intro t; reflexivity. Qed.

(** ["did:op:"] has no border: past its first character, none of its
    suffixes begins another ["did:op:"]. *)
Lemma noclash_did_tail : noclash did_str "id:op:".
Proof. repeat split; intro t; reflexivity. Qed.

Lemma esc_hit (t : string) : esc (did_str ++ t) = esc_did_str ++ esc t.
Proof. apply replace_go_hit, did_str_nonempty. Qed.

Lemma unesc_hit (t : string) : unesc (esc_did_str ++ t) = did_str ++ unesc t.
Proof. apply replace_go_hit, esc_did_str_nonempty. Qed.

(** The escaped text never starts with an unescaped DID prefix. *)
Lemma esc_not_startswith_did (s : string) :
  startswith did_str (esc s) = false.
Proof.
  destruct (startswith did_str (esc s)) eqn:H; [|reflexivity].
  pose proof (startswith_replace_inv _ _ _ _ did_str_nonempty noclash_esc_did H) as Hs.
  apply startswith_split in Hs. unfold esc in H. rewrite Hs in H.
  rewrite replace_go_hit in H by exact did_str_nonempty.
  discriminate H.
Qed.

(** After escaping, no unescaped DID prefix is left anywhere. *)
Lemma esc_no_did (s : string) : occurs did_str (esc s) = false.
Proof.
  pattern s. apply (scan_ind did_str); clear s;
    [exact did_str_nonempty | | intros t IH | intros c s Hsw IH].
  - reflexivity.
  - rewrite esc_hit. cbn. exact IH.
  - unfold esc. rewrite replace_go_miss by exact Hsw.
    cbn [occurs]. fold (esc s). rewrite IH.
    pose proof (esc_not_startswith_did (String c s)) as H.
    unfold esc in H. rewrite replace_go_miss in H by exact Hsw.
    fold (esc s) in H. now rewrite H.
Qed.

Lemma occurs_tail (p : string) (c : ascii) (s : string) :
  occurs p (String c s) = false -> occurs p s = false.
Proof. cbn [occurs]. intros H. now apply orb_false_elim in H. Qed.

Lemma occurs_head (p s : string) :
  occurs p s = false -> startswith p s = false.
Proof. destruct s; cbn [occurs]; intros H; now apply orb_false_elim in H. Qed.

(** On a text without unescaped DID prefixes, unescaping and escaping
    again gives the text back. *)
Lemma esc_unesc_fixed (s : string) :
  occurs did_str s = false -> esc (unesc s) = s.
Proof.
  pattern s. apply (scan_ind esc_did_str); clear s;
    [exact esc_did_str_nonempty | | intros t IH | intros c s Hsw IH];
    intros Hfree.
  - reflexivity.
  - rewrite unesc_hit, esc_hit. f_equal. apply IH.
    cbn in Hfree. exact Hfree.
  - unfold unesc. rewrite replace_go_miss by exact Hsw. fold (unesc s).
    assert (Hno : startswith did_str (String c (unesc s)) = false).
    { destruct (startswith did_str (String c (unesc s))) eqn:H; [|reflexivity].
      exfalso.
      unfold did_str in H, Hfree.
      rewrite startswith_cons in H. apply andb_prop in H as [Hc Htl].
      apply (startswith_replace_inv _ _ _ _ esc_did_str_nonempty noclash_did_tail)
        in Htl.
      apply occurs_head in Hfree.
      rewrite startswith_cons, Hc, Htl in Hfree. discriminate Hfree. }
    unfold esc. rewrite replace_go_miss by exact Hno. fold (esc (unesc s)).
    f_equal. apply IH. exact (occurs_tail _ _ _ Hfree).
Qed.

End EscapeDids.

Example escape_dids_plain :
  escape_dids "{query: did:op:abc}" = "{query: did\\:op\\:abc}".
Proof. reflexivity. Qed.

Example escape_dids_escaped :
  escape_dids "{query: did\\:op\\:abc did:op:def}"
  = "{query: did\\:op\\:abc did\\:op\\:def}".
Proof. reflexivity. Qed.

(** C10: the DID escaping of [es_query_ddo] (unescape every escaped DID
  prefix, then escape every DID prefix) is idempotent on every string:
  applying it twice gives what applying it once gives. *)
Theorem escape_dids_idempotent (querystr : string) :
escape_dids (escape_dids querystr) = escape_dids querystr.
Proof.
unfold escape_dids. cbn [PyStr.replace esc_did_str did_str].
apply esc_unesc_fixed. apply esc_no_did.
Qed.

(** ** Idempotence of reconciliation *)

Section UpdaterFacts.

Import MetadataUpdaterModel.

Variable source : string -> option (list event).
Variable derive : value -> value.

Lemma pos_ltb_irrefl (p : position) : pos_ltb p p = false.
Proof.
  unfold pos_ltb. rewrite !Nat.ltb_irrefl, Nat.eqb_refl. reflexivity.
Qed.

Lemma lookup_put {A : Type} (l : list (string * A)) (k : string) (v : A) :
  lookup (put l k v) k = Some v.
Proof. unfold put. simpl. now rewrite String.eqb_refl. Qed.

Lemma plus_sync_main (up : bool) (st st' : stores) (r : asset) :
  plus_sync derive up st r = Some st' -> main st' = main st.
Proof.
  unfold plus_sync. destruct (lookup (plus st) (a_id r)).
  - destruct up; [|discriminate]. destruct (a_isInPurgatory r); intros [= <-]; reflexivity.
  - intros [= <-]; reflexivity.
Qed.

(** A commit that succeeds leaves the record, clean, in the main index. *)
Lemma commit_success (up : bool) (st st' : stores) (r : asset) :
  commit derive up st r = (Success, st') ->
  lookup (main st') (a_id r) = Some (with_dirty r false).
Proof.
  unfold commit.
  destruct (plus_sync derive up _ r) as [st2|] eqn:Hsync; [|discriminate].
  intros [= <-]. rewrite (plus_sync_main _ _ _ _ Hsync). simpl.
  now rewrite String.eqb_refl.
Qed.

Lemma apply_event_id (r : asset) (ev : event) : a_id (apply_event r ev) = a_id r.
Proof. unfold apply_event. destruct (ev_kind ev); reflexivity. Qed.

Lemma apply_event_linkage (r : asset) (ev : event) :
  a_linkage (apply_event r ev) = a_linkage r.
Proof. unfold apply_event. destruct (ev_kind ev); reflexivity. Qed.

Lemma apply_event_marker (r : asset) (ev : event) :
  a_marker (apply_event r ev) = ev_position ev.
Proof. unfold apply_event. destruct (ev_kind ev); reflexivity. Qed.

Lemma with_dirty_clean (r : asset) : a_dirty r = false -> with_dirty r false = r.
Proof. destruct r; simpl; intros ->; reflexivity. Qed.

(** On a settled record the update is a no-op. *)
Lemma settled_noop (up : bool) (st : stores) (r : asset) :
  settled source r -> do_single_update source derive up st r = (Success, st).
Proof.
  intros [Hclean (ident & events & Hl & Hs & Hnew)].
  unfold do_single_update. rewrite Hl, Hs, Hclean.
  destruct (newest events) as [ev|]; [|reflexivity].
  rewrite (with_dirty_clean r Hclean). now rewrite Hnew.
Qed.

(** A successful update leaves a settled record under the same id. *)
Lemma success_settles (up : bool) (st st' : stores) (r : asset) :
  lookup (main st) (a_id r) = Some r ->
  do_single_update source derive up st r = (Success, st') ->
  exists r', lookup (main st') (a_id r) = Some r' /\ settled source r'.
Proof.
  intros Hstored. unfold do_single_update.
  destruct (a_linkage r) as [ident|] eqn:Hl; [|discriminate].
  destruct (source ident) as [events|] eqn:Hs; [|discriminate].
  assert (Hrepair : forall st1,
             (if a_dirty r then commit derive up st r else (Success, st)) = (Success, st1) ->
             lookup (main st1) (a_id r) = Some (with_dirty r false)).
  { intros st1. destruct (a_dirty r) eqn:Hd.
    - apply commit_success.
    - intros [= <-]. now rewrite with_dirty_clean. }
  destruct (if a_dirty r then commit derive up st r else (Success, st))
    as [[| | |] st1] eqn:Hfirst; try discriminate.
  specialize (Hrepair st1 eq_refl).
  destruct (newest events) as [ev|] eqn:Hnew.
  - destruct (pos_ltb (a_marker (with_dirty r false)) (ev_position ev)) eqn:Hlt.
    + intros Hc. apply commit_success in Hc.
      rewrite apply_event_id in Hc. simpl in Hc.
      eexists; split; [exact Hc|].
      split; [reflexivity|]. exists ident, events. simpl.
      rewrite apply_event_linkage, apply_event_marker. simpl.
      rewrite Hnew. repeat split; auto. apply pos_ltb_irrefl.
    + intros [= <-]. eexists; split; [exact Hrepair|].
      split; [reflexivity|]. exists ident, events. simpl.
      rewrite Hnew. repeat split; auto.
  - intros [= <-]. eexists; split; [exact Hrepair|].
    split; [reflexivity|]. exists ident, events. simpl.
    rewrite Hnew. repeat split; auto.
Qed.

Lemma reconcile_many_settled (ups : list bool) (st : stores) (did : string) (r : asset) :
  lookup (main st) did = Some r -> settled source r ->
  reconcile_many source derive ups st did = (List.repeat Success (List.length ups), st).
Proof.
  intros Hstored Hset. induction ups as [|up ups IH]; simpl; [reflexivity|].
  rewrite Hstored, (settled_noop up st r Hset), IH. reflexivity.
Qed.

End UpdaterFacts.

(** C4: once [do_single_update] has succeeded on the record stored for a
    DID, and the chain reports no new event, every later call for that DID
    succeeds and leaves both indices and the log of writes as they were,
    however many times it is repeated: the marker written by the first
    application makes the later ones no-ops. *)
Theorem do_single_update_idempotent
  (source : string -> option (list MetadataUpdaterModel.event))
  (derive : value -> value)
  (up : bool) (st st' : MetadataUpdaterModel.stores) (r : MetadataUpdaterModel.asset) :
  MetadataUpdaterModel.lookup (MetadataUpdaterModel.main st) (MetadataUpdaterModel.a_id r) = Some r ->
  MetadataUpdaterModel.do_single_update source derive up st r
    = (MetadataUpdaterModel.Success, st') ->
  exists r',
    MetadataUpdaterModel.lookup (MetadataUpdaterModel.main st') (MetadataUpdaterModel.a_id r) = Some r' /\
    (forall up', MetadataUpdaterModel.do_single_update source derive up' st' r'
                 = (MetadataUpdaterModel.Success, st')) /\
    (forall ups, MetadataUpdaterModel.reconcile_many source derive ups st' (MetadataUpdaterModel.a_id r)
                 = (List.repeat MetadataUpdaterModel.Success (List.length ups), st')).
Proof.
  intros Hstored Hrun.
  destruct (success_settles source derive up st st' r Hstored Hrun) as (r' & Hr' & Hset).
  exists r'. split; [exact Hr'|]. split.
  - intros up'. now apply settled_noop.
  - intros ups. now apply reconcile_many_settled with (r := r').
Qed.

(** ** The handlers *)

Ltac run :=
  unfold bind, lift, ret, raise, assert_, query_db, update_db, try_except,
         logger_error in *;
  cbn [fst snd] in *.

(** Case analysis on everything a computation branches on. *)
Ltac crunch :=
  repeat match goal with
         | H : (_, _) = (_, _) |- _ => inversion H; subst; clear H
         | H : context [match ?x with _ => _ end] |- _ => destruct x eqn:?
         end.

Section DictFacts.

Lemma dict_get_set_same (d : dict) (k : string) (v : value) :
  dict_get (dict_set d k v) k = Some v.
Proof.
  induction d as [|[k' v'] d IH]; simpl.
  - now rewrite String.eqb_refl.
  - destruct (String.eqb k' k) eqn:E; simpl; rewrite E; auto.
Qed.

Lemma dict_get_set_other (d : dict) (k k' : string) (v : value) :
  String.eqb k k' = false ->
  dict_get (dict_set d k v) k' = dict_get d k'.
Proof.
  intros Hk. induction d as [|[k0 v0] d IH]; simpl.
  - now rewrite Hk.
  - destruct (String.eqb k0 k) eqn:E; simpl.
    + apply String.eqb_eq in E; subst k0. now rewrite Hk.
    + destruct (String.eqb k0 k'); auto.
Qed.

Lemma dict_get_app (d : dict) (k k' : string) (v : value) :
  dict_get (d ++ [(k, v)])%list k' =
  match dict_get d k' with
  | Some x => Some x
  | None => if String.eqb k k' then Some v else None
  end.
Proof.
  induction d as [|[k0 v0] d IH]; simpl; [reflexivity|].
  destruct (String.eqb k0 k'); auto.
Qed.

(** [setdefault]: a key that is present keeps its value, an absent one gets
    the default. *)
Lemma dict_get_setdefault (d : dict) (k k' : string) (v : value) :
  dict_get (dict_setdefault d k v) k' =
  match dict_get d k' with
  | Some x => Some x
  | None => if String.eqb k k' then Some v else None
  end.
Proof.
  unfold dict_setdefault, dict_mem. destruct (dict_get d k) eqn:E.
  - destruct (dict_get d k') eqn:E'; [reflexivity|].
    destruct (String.eqb k k') eqn:Hk; [|reflexivity].
    apply String.eqb_eq in Hk; subst. congruence.
  - apply dict_get_app.
Qed.

Lemma query_data_page (data : dict) (escaped : value) :
  dict_get (query_data data escaped) "page" =
  Some (match dict_get data "page" with Some v => v | None => VInt 1 end).
Proof.
  unfold query_data. rewrite !dict_get_setdefault.
  rewrite dict_get_set_other by reflexivity.
  destruct (dict_get data "page"); reflexivity.
Qed.

Lemma query_data_offset (data : dict) (escaped : value) :
  dict_get (query_data data escaped) "offset" =
  Some (match dict_get data "offset" with Some v => v | None => VInt 100 end).
Proof.
  unfold query_data. rewrite !dict_get_setdefault.
  rewrite dict_get_set_other by reflexivity.
  destruct (dict_get data "offset"); reflexivity.
Qed.

Lemma dict_get_mem (d : dict) (k : string) (v : value) :
  dict_get d k = Some v -> dict_mem d k = true.
Proof. unfold dict_mem. now intros ->. Qed.

End DictFacts.

Section HandlerFacts.

Context `{Collaborators}.

(** From the loopback address a well-formed update goes straight to
    reconciliation. *)
Lemma update_ddo_info_loopback (did : string) (req : request) (w : world) :
  remote_addr req = "127.0.0.1" ->
  truthy (json req) && isinstance_dict (json req) = true ->
  update_ddo_info did req w = trigger_reconciliation did w.
Proof.
  intros Hr Hp. unfold update_ddo_info, trigger_reconciliation.
  run. rewrite Hp, Hr. reflexivity.
Qed.

(** What an authorised request carries. *)
Lemma admin_authorized_inv (data : dict) :
  admin_authorized data = true ->
  exists address signature recovered,
    dict_get data "adminAddress" = Some (VStr address) /\
    dict_get data "signature" = Some signature /\
    String.eqb address "" = false /\
    has_update_request_permission (VStr address) = true /\
    truthy signature = true /\
    get_signer_address (VStr address) signature = Some recovered /\
    String.eqb recovered "" = false /\
    String.eqb (str_lower recovered) (str_lower address) = true.
Proof.
  unfold admin_authorized.
  destruct (dict_get data "adminAddress") as [[| | |address| |]|]; try discriminate.
  destruct (dict_get data "signature") as [signature|]; try discriminate.
  destruct (get_signer_address (VStr address) signature) as [recovered|] eqn:Hg;
    [|rewrite andb_false_r; discriminate].
  cbn [truthy]. intros Hall.
  apply andb_prop in Hall as [Hall Hrec].
  apply andb_prop in Hrec as [Hrec Hlow].
  apply andb_prop in Hall as [Hall Hsig].
  apply andb_prop in Hall as [Haddr Hperm].
  apply negb_true_iff in Haddr, Hrec.
  exists address, signature, recovered. repeat split; auto.
Qed.

(** An authorised request reaches reconciliation, on both write routes and
    from any address. *)
Lemma authorized_update_reconciles (did : string) (req : request) (data : dict) (w : world) :
  json req = VDict data ->
  admin_authorized data = true ->
  update_ddo_info did req w = trigger_reconciliation did w.
Proof.
  intros Hj Hauth.
  destruct (admin_authorized_inv data Hauth)
    as (address & signature & recovered & Ha & Hs & Hta & Hp & Hts & Hg & Htr & Hl).
  unfold update_ddo_info. fold (trigger_reconciliation did). rewrite Hj.
  assert (Hne : truthy (VDict data) = true).
  { destruct data; [discriminate Ha|reflexivity]. }
  rewrite Hne. cbn [isinstance_dict andb py_get].
  cbv beta iota delta [bind lift ret assert_].
  destruct (negb (String.eqb (remote_addr req) "127.0.0.1")); [|reflexivity].
  rewrite Ha, Hs. cbn [truthy py_lower]. rewrite Hta, Hp, Hts, Hg, Htr.
  cbn [negb orb]. cbv beta iota. rewrite Hl. reflexivity.
Qed.

Lemma authorized_delist_reconciles (did : string) (req : request) (data : dict) (w : world) :
  json req = VDict data ->
  admin_authorized data = true ->
  delist_ddo did req w = trigger_reconciliation did w.
Proof.
  intros Hj Hauth.
  destruct (admin_authorized_inv data Hauth)
    as (address & signature & recovered & Ha & Hs & Hta & Hp & Hts & Hg & Htr & Hl).
  unfold delist_ddo. fold (trigger_reconciliation did). rewrite Hj.
  assert (Hne : truthy (VDict data) = true).
  { destruct data; [discriminate Ha|reflexivity]. }
  rewrite Hne. cbn [isinstance_dict andb py_get].
  cbv beta iota delta [bind lift ret assert_].
  rewrite Ha, Hs. cbn [truthy py_lower]. rewrite Hta, Hp, Hts, Hg, Htr.
  cbn [negb orb]. cbv beta iota. rewrite Hl. reflexivity.
Qed.

(** Reconciliation when [do_single_update] raises. *)
Lemma trigger_reconciliation_failed (did : string) (w : world)
  (record : value) (updater : Updater) (e : exn) (d : DB) :
  dao_get did (db w) = Ok record ->
  truthy record = true ->
  MetadataUpdater (db_index ++ "_plus") (db w) = Ok updater ->
  do_single_update updater record (db w) = (Raise e, d) ->
  trigger_reconciliation did w =
  (Ok (not_in_oceandb did),
   {| db := d;
      calls := (calls w ++
                [DaoGet did; NewMetadataUpdater (db_index ++ "_plus");
                 DoSingleUpdate record;
                 LogError ("get_metadata: " ++ str_of_exn e)])%list |}).
Proof.
  intros Hget Ht Hu Hs.
  unfold trigger_reconciliation.
  cbv beta iota delta [bind ret query_db update_db try_except logger_error note].
  simpl. rewrite Hget, Ht. simpl. rewrite Hu. simpl.
  rewrite Hs. simpl.
  repeat rewrite <- List.app_assoc. reflexivity.
Qed.

(** Reconciliation answers 200 or 404, never 401. *)
Lemma trigger_reconciliation_not_401 (did : string) (w : world) :
  status_of (fst (trigger_reconciliation did w)) <> Some 401.
Proof.
  unfold trigger_reconciliation.
  cbv beta iota delta [bind ret query_db update_db try_except logger_error].
  destruct (dao_get did (db w)) as [record|e]; [|discriminate].
  destruct (negb (truthy record)); [discriminate|].
  destruct (MetadataUpdater _ _) as [updater|e]; [|discriminate].
  destruct (do_single_update updater record _) as [[[]|e] d]; discriminate.
Qed.

(** Past the query checks, [es_query_ddo] runs the store query on
    [query_data] and builds its answer from the result. *)
Lemma es_query_ddo_run (req : request) (data : dict) (escaped : value) (w : world) :
  json req = VDict data ->
  py_contains "query_string"
    (match dict_get data "query" with Some q => q | None => VNone end) = Ok true ->
  json_loads (escape_dids
    (json_dumps (match dict_get data "query" with Some q => q | None => VNone end)))
    = Ok escaped ->
  let data' := query_data data escaped in
  es_query_ddo req w =
  (match dao_run_es_query (VDict data') (db w) with
   | Raise e => Raise e
   | Ok (hits, total) =>
       match sanitize_each hits with
       | Raise e => Raise e
       | Ok ddos =>
           match make_paginate_response (ddos, total) (search_model_of data') with
           | Raise e => Raise e
           | Ok response =>
               match json_dumps_default response with
               | Raise e => Raise e
               | Ok dumped => Ok (Response dumped 200)
               end
           end
       end
   end,
   {| db := db w; calls := calls w ++ [RunEsQuery (VDict data')] |}).
Proof.
  intros Hj Hq Hl data'.
  pose proof (query_data_page data escaped) as Hpage.
  pose proof (query_data_offset data escaped) as Hoff.
  subst data'. unfold search_model_of, query_data in *. cbv beta zeta in *.
  rewrite Hpage, Hoff.
  unfold es_query_ddo. rewrite Hj. cbn [isinstance_dict py_get].
  cbv beta iota delta [bind lift ret raise assert_ query_db note].
  rewrite Hq. cbv beta iota. rewrite Hl. cbv beta iota.
  cbn [py_setitem py_setdefault py_getitem py_get db calls]. cbv beta iota.
  destruct (dao_run_es_query _ (db w)) as [[hits total]|e]; [|reflexivity].
  rewrite Hpage, Hoff. cbn [fst snd]. cbv beta iota.
  destruct (sanitize_each hits) as [ddos|e]; [|reflexivity].
  destruct (make_paginate_response _ _) as [response|e]; [|reflexivity].
  destruct (json_dumps_default response); reflexivity.
Qed.

End HandlerFacts.

(** ** The claims about the write handlers *)




(** C2 (as amended): for every [PUT /ddo/update/<did>] request from a
    non-loopback address whose body is a non-empty JSON object, with an
    allow-list that holds strings only, the handler goes on to
    reconciliation exactly when the supplied adminAddress is on the
    allow-list and the supplied signature recovers to a non-empty address
    that equals the adminAddress once [str.lower] has been applied to
    both; in every other case it answers 401 and does nothing else. *)
Theorem update_ddo_info_authorization `{Collaborators}
  (did : string) (req : request) (data : dict) (w : world) :
  json req = VDict data ->
  data <> [] ->
  remote_addr req <> "127.0.0.1" ->
  (forall v, has_update_request_permission v = true -> exists s, v = VStr s) ->
  status unauthorized = 401 /\
  status_of (fst (trigger_reconciliation did w)) <> Some 401 /\
  update_ddo_info did req w =
  if admin_authorized data
  then trigger_reconciliation did w
  else (Ok unauthorized, w).
Proof.
  intros Hj Hne Hr Hstr. split; [reflexivity|].
  split; [apply trigger_reconciliation_not_401|].
  apply String.eqb_neq in Hr.
  unfold update_ddo_info. fold (trigger_reconciliation did).
  rewrite Hj, Hr. destruct data as [|kv data]; [congruence|].
  cbn [truthy isinstance_dict andb negb py_get].
  cbv beta iota delta [bind lift ret assert_].
  unfold admin_authorized.
  destruct (dict_get (kv :: data) "adminAddress") as [address|] eqn:Ha;
    [|reflexivity].
  destruct (has_update_request_permission address) eqn:Hperm.
  - destruct (Hstr _ Hperm) as [a ->]. rewrite Hperm.
    cbn [truthy negb orb andb].
    destruct (String.eqb a "") eqn:Ht; cbn [negb orb andb].
    + destruct (dict_get (kv :: data) "signature"); reflexivity.
    + destruct (dict_get (kv :: data) "signature") as [signature|];
        [|reflexivity].
      destruct (truthy signature); cbn [andb]; [|reflexivity].
      destruct (get_signer_address (VStr a) signature) as [recovered|];
        [|reflexivity].
      cbn [py_lower].
      destruct (String.eqb recovered "") eqn:Hrec; cbn [negb andb];
        [reflexivity|].
      cbv beta iota.
      destruct (String.eqb (str_lower recovered) (str_lower a)); reflexivity.
  - rewrite orb_true_r.
    destruct address; try reflexivity.
    rewrite Hperm, andb_false_r.
    destruct (dict_get (kv :: data) "signature"); reflexivity.
Qed.

Lemma update_ddo_info_authorization_witness :
  json Fixture.admin
  = VDict [("adminAddress", VStr "0xA11CE"); ("signature", VStr "signed-by:0xa11ce")] /\
  remote_addr Fixture.admin <> "127.0.0.1" /\
  update_ddo_info "did:op:abc" Fixture.admin Fixture.w0
  = trigger_reconciliation "did:op:abc" Fixture.w0.
Proof.
  split; [reflexivity|]. split; [discriminate|].
  refine (proj2 (proj2 (update_ddo_info_authorization "did:op:abc" Fixture.admin _
                          Fixture.w0 eq_refl _ _ _))).
  - discriminate.
  - discriminate.
  - intros v. destruct v; simpl; try discriminate. intros _. eexists; reflexivity.
Defined.

(** C2 fails as stated: a remote request whose body is the empty JSON
    object carries no adminAddress, yet the handler does not answer 401:
    its payload assertion fails first. *)
Lemma update_ddo_info_empty_body_not_401 :
  remote_addr Fixture.empty_body <> "127.0.0.1" /\
  py_get (json Fixture.empty_body) "adminAddress" = Ok VNone /\
  update_ddo_info "did:op:abc" Fixture.empty_body Fixture.w0
  = (Raise (AssertionError "invalid payload format."), Fixture.w0) /\
  status_of (fst (update_ddo_info "did:op:abc" Fixture.empty_body Fixture.w0))
  <> Some 401.
Proof. split; [discriminate|]. repeat split; try reflexivity. discriminate. Qed.

(** C3 (as amended): for every [PUT /ddo/update/<did>] request from a
    non-loopback address whose adminAddress is absent, empty or not on the
    allow-list, the handler leaves the world as it found it: no record is
    fetched, no MetadataUpdater is built, [do_single_update] is not called
    and the store is unchanged.  Its answer is 401 when the body is a
    non-empty JSON object; otherwise the payload assertion fails. *)
Theorem update_ddo_info_rejects_unpermitted `{Collaborators}
  (did : string) (req : request) (w : world) :
  remote_addr req <> "127.0.0.1" ->
  (forall address,
      py_get (json req) "adminAddress" = Ok address ->
      truthy address && has_update_request_permission address = false) ->
  status unauthorized = 401 /\
  update_ddo_info did req w =
  (if truthy (json req) && isinstance_dict (json req)
   then Ok unauthorized
   else Raise (AssertionError "invalid payload format."),
   w).
Proof.
  intros Hr Hbad. split; [reflexivity|].
  apply String.eqb_neq in Hr. unfold update_ddo_info. rewrite Hr.
  destruct (truthy (json req) && isinstance_dict (json req)) eqn:Hp;
    cbv beta iota delta [bind lift ret raise assert_]; [|reflexivity].
  destruct (py_get (json req) "adminAddress") as [address|e] eqn:Ha.
  - specialize (Hbad address eq_refl).
    cbn [negb]. rewrite <- negb_andb, Hbad. reflexivity.
  - exfalso. apply andb_prop in Hp as [_ Hd].
    destruct (json req); try discriminate Hd. discriminate Ha.
Qed.

Lemma update_ddo_info_rejects_unpermitted_witness :
  remote_addr Fixture.anonymous <> "127.0.0.1" /\
  py_get (json Fixture.anonymous) "adminAddress" = Ok VNone /\
  update_ddo_info "did:op:abc" Fixture.anonymous Fixture.w0
  = (Ok unauthorized, Fixture.w0).
Proof.
  split; [discriminate|]. split; [reflexivity|].
  refine (proj2 (update_ddo_info_rejects_unpermitted "did:op:abc"
                   Fixture.anonymous Fixture.w0 _ _)).
  - discriminate.
  - intros address [= <-]. reflexivity.
Defined.

(** C3 fails as stated: with the empty JSON object as body the adminAddress
    is absent and nothing is touched, but the handler raises instead of
    answering 401. *)
Lemma update_ddo_info_empty_body_raises :
  remote_addr Fixture.empty_body <> "127.0.0.1" /\
  dict_get [] "adminAddress" = None /\
  json Fixture.empty_body = VDict [] /\
  fst (update_ddo_info "did:op:abc" Fixture.empty_body Fixture.w0)
  = Raise (AssertionError "invalid payload format.") /\
  fst (update_ddo_info "did:op:abc" Fixture.empty_body Fixture.w0)
  <> Ok unauthorized /\
  snd (update_ddo_info "did:op:abc" Fixture.empty_body Fixture.w0) = Fixture.w0.
Proof. repeat split; try discriminate; reflexivity. Qed.

(** ** The claims about validation, lookup and search *)

(** C5 (as amended): [POST /ddo/validate-remote] fails its payload
    assertion when the body is not a JSON object.  On a JSON object it
    answers 400 with the invalid-format message when the body has no
    [service] key, or when the metadata entry the helper takes from its
    services is an object without an [attributes] key; when that entry is
    an object with [attributes], it hands them to the remote validator and
    answers JSON [true] when the validator accepts them and the validator's
    list of errors when it does not. *)
Theorem validate_remote_cases `{Collaborators} (req : request) (w : world) :
  status invalid_ddo_format = 400 /\
  (isinstance_dict (json req) = false ->
   validate_remote req w = (Raise (AssertionError "invalid payload format."), w)) /\
  (forall data,
      json req = VDict data ->
      (dict_mem data "service" = false ->
       validate_remote req w = (Ok invalid_ddo_format, w)) /\
      (forall service metadata,
          dict_get data "service" = Some service ->
          get_metadata_from_services service = Ok (VDict metadata) ->
          (dict_mem metadata "attributes" = false ->
           validate_remote req w = (Ok invalid_ddo_format, w)) /\
          (forall attributes,
              dict_get metadata "attributes" = Some attributes ->
              validate_remote req w =
              (Ok (if is_valid_dict_remote attributes
                   then jsonify (VBool true) 200
                   else jsonify (list_errors list_errors_dict_remote attributes) 200),
               w)))).
Proof.
  split; [reflexivity|]. split.
  - intros Hd. unfold validate_remote.
    cbv beta iota delta [bind lift ret raise assert_]. rewrite Hd. reflexivity.
  - intros data Hj.
    unfold validate_remote, invalid_ddo_format. rewrite Hj.
    cbn [isinstance_dict py_contains py_getitem].
    cbv beta iota delta [bind lift ret assert_].
    split.
    + intros Hs. rewrite Hs. reflexivity.
    + intros service metadata Hs Hm.
      rewrite (dict_get_mem _ _ _ Hs), Hs.
      cbn [negb]. cbv beta iota. rewrite Hm.
      cbn [py_contains py_getitem]. cbv beta iota. split.
      * intros Ha. rewrite Ha. reflexivity.
      * intros attributes Ha. rewrite (dict_get_mem _ _ _ Ha), Ha.
        cbn [negb]. cbv beta iota.
        destruct (is_valid_dict_remote attributes); reflexivity.
Qed.

Lemma validate_remote_cases_witness :
  validate_remote (mk_request "203.0.113.7" (VStr "service")) Fixture.w0
  = (Raise (AssertionError "invalid payload format."), Fixture.w0) /\
  validate_remote (mk_request "203.0.113.7" (VDict [("id", VStr "did:op:abc")])) Fixture.w0
  = (Ok invalid_ddo_format, Fixture.w0) /\
  validate_remote
    (mk_request "203.0.113.7"
       (VDict [("service", VList [VDict [("type", VStr "metadata")]])])) Fixture.w0
  = (Ok invalid_ddo_format, Fixture.w0) /\
  validate_remote (mk_request "203.0.113.7" Fixture.sample_asset) Fixture.w0
  = (Ok (jsonify (VBool true) 200), Fixture.w0).
Proof.
  split; [|split; [|split]].
  - exact (proj1 (proj2 (validate_remote_cases
                           (mk_request "203.0.113.7" (VStr "service")) Fixture.w0))
                 eq_refl).
  - refine (proj1 (proj2 (proj2 (validate_remote_cases
                                   (mk_request "203.0.113.7" (VDict [("id", VStr "did:op:abc")]))
                                   Fixture.w0))
                         _ eq_refl) _).
    reflexivity.
  - refine (proj1 (proj2 (proj2 (proj2 (validate_remote_cases
                                   (mk_request "203.0.113.7"
                                      (VDict [("service", VList [VDict [("type", VStr "metadata")]])]))
                                   Fixture.w0))
                                _ eq_refl)
                         _ [("type", VStr "metadata")] eq_refl eq_refl) _).
    reflexivity.
  - refine (proj2 (proj2 (proj2 (proj2 (validate_remote_cases
                                   (mk_request "203.0.113.7" Fixture.sample_asset)
                                   Fixture.w0))
                                _ eq_refl)
                         _ _ eq_refl eq_refl)
                  (VDict [("main", VDict [("name", VStr "weather")])]) _).
    reflexivity.
Defined.

(** C5 fails as stated: a body that is a JSON list has no [service] key,
    yet the handler raises at its payload assertion instead of answering
    400; and for a DDO whose services hold no metadata entry, where the
    helper hands back [None], the handler raises TypeError at the
    [attributes] test: neither 400 nor a validation result. *)
Lemma validate_remote_raises_instead_of_400 :
  py_contains "service" (VList []) = Ok false /\
  validate_remote (mk_request "203.0.113.7" (VList [])) Fixture.w0
  = (Raise (AssertionError "invalid payload format."), Fixture.w0) /\
  get_metadata_from_services (VList []) = Ok VNone /\
  validate_remote
    (mk_request "203.0.113.7" (VDict [("service", VList [])])) Fixture.w0
  = (Raise (TypeError "argument is not iterable"), Fixture.w0).
Proof. repeat split; reflexivity. Qed.

(** C7: [GET /ddo/<did>] always answers: with status 200 and, as JSON body,
    the serialisation of the record the store holds for the DID; or, when
    the record cannot be retrieved, with status 404 and the plain text
    "<did> asset DID is not in OceanDB". *)
Theorem get_ddo_spec `{Collaborators} (did : string) (w : world) :
  ((exists record record' s,
       dao_get did (db w) = Ok record /\
       sanitize_record record = Ok (record', s) /\
       fst (get_ddo did w)
       = Ok {| body := s; status := 200; content_type := json_content_type |})
   \/
   ((forall record, dao_get did (db w) = Ok record ->
                    exists e, sanitize_record record = Raise e) /\
    fst (get_ddo did w)
    = Ok {| body := did ++ " asset DID is not in OceanDB";
            status := 404; content_type := text_content_type |})).
Proof.
  unfold get_ddo.
  cbv beta iota delta [bind lift ret try_except query_db logger_error].
  destruct (dao_get did (db w)) as [record|e] eqn:Hget.
  - destruct (sanitize_record record) as [[record' s]|e] eqn:Hs.
    + left. exists record, record', s. auto.
    + right. split; [|reflexivity].
      intros r [= <-]. eauto.
  - right. split; [|reflexivity]. intros r Hr. discriminate Hr.
Qed.

(** C8: on a JSON object body whose [query] is an object, [POST /ddo/query]
    fails before any call to the store when the query has no
    [query_string] key; when it has one (and the rewritten query reads back
    as JSON) the handler runs the store query, once, and answers 200 with
    the paginated result the store query leads to. *)
Theorem es_query_ddo_requires_query_string `{Collaborators}
  (req : request) (data query : dict) (w : world) :
  json req = VDict data ->
  dict_get data "query" = Some (VDict query) ->
  (dict_mem query "query_string" = false ->
   es_query_ddo req w = (Raise (AssertionError "No query_string found."), w)) /\
  (dict_mem query "query_string" = true ->
   forall escaped,
     json_loads (escape_dids (json_dumps (VDict query))) = Ok escaped ->
     let data' := query_data data escaped in
     calls (snd (es_query_ddo req w)) = (calls w ++ [RunEsQuery (VDict data')])%list /\
     db (snd (es_query_ddo req w)) = db w /\
     forall hits total ddos page dumped,
       dao_run_es_query (VDict data') (db w) = Ok (hits, total) ->
       sanitize_each hits = Ok ddos ->
       make_paginate_response (ddos, total) (search_model_of data') = Ok page ->
       json_dumps_default page = Ok dumped ->
       fst (es_query_ddo req w) = Ok (Response dumped 200)).
Proof.
  intros Hj Hq. split.
  - intros Hno. unfold es_query_ddo. rewrite Hj.
    cbn [isinstance_dict py_get]. rewrite Hq.
    cbv beta iota delta [bind lift ret raise assert_].
    cbn [py_contains]. rewrite Hno. reflexivity.
  - intros Hyes escaped Hl data'.
    rewrite (es_query_ddo_run req data escaped w Hj);
      rewrite ?Hq; cbn [py_contains]; rewrite ?Hyes; auto.
    cbn [fst snd calls db]. repeat split.
    intros hits total ddos page dumped Hrun Hsan Hpag Hdump.
    fold data'. now rewrite Hrun, Hsan, Hpag, Hdump.
Qed.

Lemma es_query_ddo_requires_query_string_witness :
  es_query_ddo (mk_request "203.0.113.7" (VDict [("query", VDict [("match_all", VDict [])])]))
               Fixture.w0
  = (Raise (AssertionError "No query_string found."), Fixture.w0) /\
  calls (snd (es_query_ddo Fixture.search Fixture.w0))
  = [RunEsQuery (VDict [("query", Fixture.sample_query_escaped);
                        ("page", VInt 0); ("offset", VInt 100)])] /\
  status_of (fst (es_query_ddo Fixture.search Fixture.w0)) = Some 200.
Proof.
  split; [|split].
  - refine (proj1 (es_query_ddo_requires_query_string
                     (mk_request "203.0.113.7" (VDict [("query", VDict [("match_all", VDict [])])]))
                     _ _ Fixture.w0 eq_refl eq_refl) eq_refl).
  - exact (proj1 (proj2 (es_query_ddo_requires_query_string
                           Fixture.search _ _ Fixture.w0 eq_refl eq_refl)
                        eq_refl Fixture.sample_query_escaped eq_refl)).
  - rewrite (proj2 (proj2 (proj2 (es_query_ddo_requires_query_string
                           Fixture.search _ _ Fixture.w0 eq_refl eq_refl)
                        eq_refl Fixture.sample_query_escaped eq_refl))
                   _ _ _ _ _ eq_refl eq_refl eq_refl eq_refl).
    reflexivity.
Defined.

(** C9: whenever [POST /ddo/query] gets as far as the store query, the data
    it queries with holds the caller's [page] and [offset] where the body
    had them and the defaults 1 and 100 where it had not. *)
Theorem es_query_ddo_pagination_defaults `{Collaborators}
  (req : request) (data : dict) (escaped : value) (w : world) :
  json req = VDict data ->
  py_contains "query_string"
    (match dict_get data "query" with Some q => q | None => VNone end) = Ok true ->
  json_loads (escape_dids
    (json_dumps (match dict_get data "query" with Some q => q | None => VNone end)))
    = Ok escaped ->
  exists data',
    calls (snd (es_query_ddo req w)) = (calls w ++ [RunEsQuery (VDict data')])%list /\
    dict_get data' "page"
    = Some (match dict_get data "page" with Some v => v | None => VInt 1 end) /\
    dict_get data' "offset"
    = Some (match dict_get data "offset" with Some v => v | None => VInt 100 end).
Proof.
  intros Hj Hq Hl. exists (query_data data escaped).
  rewrite (es_query_ddo_run req data escaped w Hj Hq Hl).
  split; [reflexivity|]. split.
  - apply query_data_page.
  - apply query_data_offset.
Qed.

Lemma es_query_ddo_pagination_defaults_witness :
  exists data',
    calls (snd (es_query_ddo Fixture.search Fixture.w0))
    = (calls Fixture.w0 ++ [RunEsQuery (VDict data')])%list /\
    dict_get data' "page" = Some (VInt 0) /\
    dict_get data' "offset" = Some (VInt 100).
Proof.
  exact (es_query_ddo_pagination_defaults Fixture.search _
           Fixture.sample_query_escaped Fixture.w0 eq_refl eq_refl eq_refl).
Defined.

(** ** The bodies of the answers *)

Ltac unfold_handlers H :=
  cbv beta iota zeta delta
      [dispatch get_assets_ids get_ddo get_asset_ddos get_metadata es_query_ddo
       validate validate_remote update_ddo_info delist_ddo
       bind lift ret raise assert_ query_db update_db try_except logger_error]
    in H.

(** C6 (as amended): every answer a handler returns is sent as
    [application/json], with four exceptions: the plain-text 404 "<did> asset DID is not in OceanDB"
    that [GET /ddo/<did>], [GET /metadata/<did>], [PUT /ddo/update/<did>]
    and [DELETE /ddo/<did>] return when their [try] block raises.  The 401
    answers and the record-not-found 404 of the two write handlers are
    JSON. *)
Theorem responses_json_or_not_in_oceandb `{Collaborators}
  (r : route) (req : request) (w w' : world) (resp : response) :
  dispatch r req w = (Ok resp, w') ->
  content_type resp = json_content_type \/
  (exists did,
      (r = GET_ddo_did did \/ r = GET_metadata_did did \/
       r = PUT_ddo_update_did did \/ r = DELETE_ddo_did did) /\
      resp = not_in_oceandb did).
Proof.
  intros Hd.
  destruct r; unfold_handlers Hd; crunch;
    try (left; reflexivity);
    right; eexists; (split; [|reflexivity]); auto.
Qed.

Lemma responses_json_or_not_in_oceandb_witness :
  content_type (jsonify (VStr "acknowledged.") 200) = json_content_type \/
  (exists did,
      (PUT_ddo_update_did "did:op:abc" = GET_ddo_did did \/
       PUT_ddo_update_did "did:op:abc" = GET_metadata_did did \/
       PUT_ddo_update_did "did:op:abc" = PUT_ddo_update_did did \/
       PUT_ddo_update_did "did:op:abc" = DELETE_ddo_did did) /\
      jsonify (VStr "acknowledged.") 200 = not_in_oceandb did).
Proof.
  exact (responses_json_or_not_in_oceandb (PUT_ddo_update_did "did:op:abc")
           Fixture.local_job Fixture.w0 _ _ eq_refl).
Defined.

(** C6 fails as stated: the update and delete handlers too answer with the
    plain-text 404 when the record cannot be fetched, here for a DID the
    store does not hold. *)
Lemma write_handlers_plain_text_404 :
  fst (dispatch (PUT_ddo_update_did "did:op:zzz") Fixture.local_job Fixture.w0)
  = Ok (not_in_oceandb "did:op:zzz") /\
  fst (dispatch (DELETE_ddo_did "did:op:zzz") Fixture.admin Fixture.w0)
  = Ok (not_in_oceandb "did:op:zzz") /\
  content_type (not_in_oceandb "did:op:zzz") <> json_content_type /\
  status (not_in_oceandb "did:op:zzz") = 404.
Proof. repeat split; try discriminate; vm_compute; reflexivity. Qed.

(** The two lookup handlers do return theirs. *)
Example read_handlers_plain_text_404 :
  fst (dispatch (GET_ddo_did "did:op:zzz") Fixture.anonymous Fixture.w0)
  = Ok (not_in_oceandb "did:op:zzz") /\
  fst (dispatch (GET_metadata_did "did:op:zzz") Fixture.anonymous Fixture.w0)
  = Ok (not_in_oceandb "did:op:zzz").
Proof. split; vm_compute; reflexivity. Qed.

(** ** The updater on the scenario of the specification *)

Lemma do_single_update_idempotent_witness :
  exists r',
    MetadataUpdaterModel.lookup
      (MetadataUpdaterModel.main
         (snd (MetadataUpdaterModel.do_single_update Fixture.chain (fun v => v) true
                 Fixture.stores0 Fixture.stored_asset)))
      "did:op:abc" = Some r' /\
    MetadataUpdaterModel.a_isInPurgatory r' = true /\
    MetadataUpdaterModel.a_marker r' = (100, 0) /\
    forall ups,
      MetadataUpdaterModel.reconcile_many Fixture.chain (fun v => v) ups
        (snd (MetadataUpdaterModel.do_single_update Fixture.chain (fun v => v) true
                Fixture.stores0 Fixture.stored_asset))
        "did:op:abc"
      = (List.repeat MetadataUpdaterModel.Success (List.length ups),
         snd (MetadataUpdaterModel.do_single_update Fixture.chain (fun v => v) true
                Fixture.stores0 Fixture.stored_asset)).
Proof.
  destruct (do_single_update_idempotent Fixture.chain (fun v => v) true
              Fixture.stores0 _ Fixture.stored_asset eq_refl eq_refl)
    as (r' & Hr' & _ & Hmany).
  exists r'. split; [exact Hr'|].
  assert (Hv : r' = MetadataUpdaterModel.mk_asset "did:op:abc" (Some "0xAAA") VNone
                      true (100, 0) false).
  { vm_compute in Hr'. congruence. }
  subst r'. repeat split. exact Hmany.
Defined.

(** ** More on the DID escaping *)

Section EscapeMore.

Import PyStr.

Lemma occurs_app_r (p a t : string) :
  occurs p (a ++ t) = false -> occurs p t = false.
Proof.
  induction a as [|c a IH]; simpl; [auto|].
  intros H. apply orb_false_elim in H as [_ H]. auto.
Qed.

(** A pattern that does not occur leaves the text as it is. *)
Lemma replace_go_absent (old new s : string) :
  occurs old s = false -> replace_go old new 0 s = s.
Proof.
  induction s as [|c s IH]; intros H; [reflexivity|].
  pose proof (occurs_head _ _ H) as Hh.
  rewrite replace_go_miss by exact Hh. f_equal.
  apply IH. exact (occurs_tail _ _ _ H).
Qed.

(** Replacing [old] by [new] and then [new] by [old] gives the text back
    when [new] is not in it and cannot overlap itself. *)
Lemma replace_go_round_trip (old new tl : string) (c : ascii) (s : string) :
  old <> EmptyString ->
  new = String c tl ->
  noclash new tl ->
  occurs new s = false ->
  replace_go new old 0 (replace_go old new 0 s) = s.
Proof.
  intros Hold Hnew Hnc.
  assert (Hne : new <> EmptyString) by (subst new; discriminate).
  pattern s. apply (scan_ind old); clear s;
    [exact Hold | | intros t IH | intros c0 s Hsw IH]; intros Hfree.
  - reflexivity.
  - rewrite (replace_go_hit old new t Hold).
    rewrite (replace_go_hit new old _ Hne). f_equal.
    apply IH. exact (occurs_app_r _ _ _ Hfree).
  - rewrite replace_go_miss by exact Hsw.
    assert (Hno : startswith new (String c0 (replace_go old new 0 s)) = false).
    { destruct (startswith new (String c0 (replace_go old new 0 s))) eqn:E;
        [|reflexivity].
      exfalso. apply occurs_head in Hfree. subst new.
      rewrite startswith_cons in E, Hfree.
      apply andb_prop in E as [Hc Htl].
      apply (startswith_replace_inv _ _ _ _ Hold Hnc) in Htl.
      rewrite Hc, Htl in Hfree. discriminate Hfree. }
    rewrite replace_go_miss by exact Hno. f_equal.
    apply IH. exact (occurs_tail _ _ _ Hfree).
Qed.

(** The escaped form cannot overlap itself either. *)
Lemma noclash_esc_tail : noclash esc_did_str "id\\:op\\:".
Proof. repeat split; intro t; reflexivity. Qed.

End EscapeMore.

(** X1: after the rewrite of lines 195-196 no unescaped ["did:op:"] is left
    anywhere in the query text. *)
Theorem escape_dids_leaves_no_bare_did (querystr : string) :
  PyStr.occurs did_str (escape_dids querystr) = false.
Proof.
  unfold escape_dids. cbn [PyStr.replace esc_did_str did_str].
  apply esc_no_did.
Qed.

(** X2: a query text without an unescaped ["did:op:"] (one that is already
    escaped, or mentions no DID) comes out of the rewrite unchanged. *)
Theorem escape_dids_fixes_escaped (querystr : string) :
  PyStr.occurs did_str querystr = false ->
  escape_dids querystr = querystr.
Proof.
  intros H. unfold escape_dids. cbn [PyStr.replace esc_did_str did_str].
  now apply esc_unesc_fixed.
Qed.

Lemma escape_dids_fixes_escaped_witness :
  PyStr.occurs did_str "{query: did\\:op\\:abc}" = false /\
  escape_dids "{query: did\\:op\\:abc}" = "{query: did\\:op\\:abc}".
Proof.
  split; [reflexivity|].
  apply escape_dids_fixes_escaped. reflexivity.
Defined.

(** X3: on a query text that holds no escaped DID prefix the rewrite loses
    nothing: replacing the escaped form by ["did:op:"] in its result gives
    the text back. *)
Theorem escape_dids_undone_by_unescaping (querystr : string) :
  PyStr.occurs esc_did_str querystr = false ->
  PyStr.replace (escape_dids querystr) esc_did_str did_str = querystr.
Proof.
  intros H. unfold escape_dids. cbn [PyStr.replace esc_did_str did_str].
  fold esc_did_str did_str.
  rewrite (replace_go_absent esc_did_str did_str querystr H).
  apply (replace_go_round_trip did_str esc_did_str "id\\:op\\:" "d"%char);
    [exact did_str_nonempty | reflexivity | exact noclash_esc_tail | exact H].
Qed.

Lemma escape_dids_undone_by_unescaping_witness :
  PyStr.occurs esc_did_str "{query: did:op:abc OR did:op:def}" = false /\
  PyStr.replace (escape_dids "{query: did:op:abc OR did:op:def}")
                esc_did_str did_str
  = "{query: did:op:abc OR did:op:def}".
Proof.
  split; [reflexivity|].
  apply escape_dids_undone_by_unescaping. reflexivity.
Defined.

(** ** The lookup and listing handlers *)

Section ListingFacts.

Context `{Collaborators}.

Lemma ids_of_dicts (records : list dict) :
  ids_of (List.map VDict records)
  = Ok (List.flat_map
          (fun d => match dict_get d "id" with Some i => [i] | None => [] end)
          records).
Proof.
  induction records as [|d records IH]; [reflexivity|].
  cbn [List.map ids_of py_contains py_getitem List.flat_map].
  rewrite IH. unfold dict_mem.
  destruct (dict_get d "id"); reflexivity.
Qed.

Lemma sanitize_each_ok (records records' : list value) :
  sanitize_each records = Ok records' ->
  List.Forall2 (fun r r' => exists s, sanitize_record r = Ok (r', s))
               records records'.
Proof.
  revert records'. induction records as [|r records IH]; intros records' Hs.
  - inversion Hs. constructor.
  - cbn [sanitize_each] in Hs.
    destruct (sanitize_record r) as [[r' s]|e] eqn:Hr; [|discriminate].
    destruct (sanitize_each records) as [l|e] eqn:Hl; [|discriminate].
    inversion Hs; subst. constructor; eauto.
Qed.

Lemma sanitize_each_raises (records : list value) (r : value) (e : exn) :
  List.In r records ->
  sanitize_record r = Raise e ->
  exists e', sanitize_each records = Raise e'.
Proof.
  induction records as [|r0 records IH]; intros Hin Hr; [contradiction|].
  cbn [sanitize_each].
  destruct (sanitize_record r0) as [[r0' s]|e0] eqn:H0; [|eauto].
  destruct Hin as [->|Hin]; [congruence|].
  destruct (IH Hin Hr) as [e' ->]. eauto.
Qed.

End ListingFacts.

(** X4: [GET /metadata/<did>] always answers and never raises.  It answers
    200 with, as JSON body, the serialisation of the metadata entry of the
    stored record's services when the record is found, has a [service]
    key, and both helpers return; it answers the plain-text 404 exactly
    when one of these four steps raises.  In particular a stored record
    without a [service] key is answered with that 404. *)
Theorem get_metadata_spec `{Collaborators} (did : string) (w : world) :
  ((exists record service metadata metadata' s,
       dao_get did (db w) = Ok record /\
       py_getitem record "service" = Ok service /\
       get_metadata_from_services service = Ok metadata /\
       sanitize_record metadata = Ok (metadata', s) /\
       fst (get_metadata did w) = Ok (Response s 200))
   \/
   ((forall record service metadata,
        dao_get did (db w) = Ok record ->
        py_getitem record "service" = Ok service ->
        get_metadata_from_services service = Ok metadata ->
        exists e, sanitize_record metadata = Raise e) /\
    fst (get_metadata did w) = Ok (not_in_oceandb did))) /\
  (forall d, dao_get did (db w) = Ok (VDict d) -> dict_get d "service" = None ->
             fst (get_metadata did w) = Ok (not_in_oceandb did)).
Proof.
  unfold get_metadata.
  cbv beta iota delta [bind lift ret try_except query_db logger_error].
  destruct (dao_get did (db w)) as [record|e] eqn:Hget.
  - destruct (py_getitem record "service") as [service|e] eqn:Hsvc.
    + destruct (get_metadata_from_services service) as [metadata|e] eqn:Hm.
      * destruct (sanitize_record metadata) as [[metadata' s]|e] eqn:Hs.
        -- split; [left; exists record, service, metadata, metadata', s; auto|].
           intros d [= ->] Hd. cbn [py_getitem] in Hsvc. rewrite Hd in Hsvc.
           discriminate Hsvc.
        -- split; [right; split; [|reflexivity]|intros; reflexivity].
           intros r sv m [= <-] Hsv Hm'. rewrite Hsvc in Hsv.
           inversion Hsv; subst sv. rewrite Hm in Hm'.
           inversion Hm'; subst m. eauto.
      * split; [right; split; [|reflexivity]|intros; reflexivity].
        intros r sv m [= <-] Hsv Hm'. rewrite Hsvc in Hsv.
        inversion Hsv; subst sv. rewrite Hm in Hm'. discriminate Hm'.
    + split; [right; split; [|reflexivity]|intros; reflexivity].
      intros r sv m [= <-] Hsv. rewrite Hsvc in Hsv. discriminate Hsv.
  - split; [right; split; [|reflexivity]|intros; reflexivity].
    intros r sv m Hr. discriminate Hr.
Qed.

(** X5: when the store lists dictionaries, [GET /] answers 200 with the
    JSON list of the [id] values of the records that have one, in the
    store's order; records without an [id] are skipped, and the store is
    asked once. *)
Theorem get_assets_ids_lists_ids `{Collaborators}
  (records : list dict) (w : world) :
  dao_get_all_listed_assets (db w) = Ok (List.map VDict records) ->
  get_assets_ids w =
  (Ok (Response
         (json_dumps
            (VList (List.flat_map
                      (fun d => match dict_get d "id" with
                                | Some i => [i]
                                | None => []
                                end)
                      records)))
         200),
   note GetAllListedAssets w).
Proof.
  intros Hl. unfold get_assets_ids.
  cbv beta iota delta [bind lift ret query_db].
  rewrite Hl, ids_of_dicts. reflexivity.
Qed.

Lemma get_assets_ids_lists_ids_witness :
  get_assets_ids
    {| db := [("did:op:abc", Fixture.sample_asset);
              ("did:op:anon", VDict [("service", VList [])])];
       calls := [] |}
  = (Ok (Response (Fixture.show (VList [VStr "did:op:abc"])) 200),
     {| db := [("did:op:abc", Fixture.sample_asset);
               ("did:op:anon", VDict [("service", VList [])])];
        calls := [GetAllListedAssets] |}).
Proof.
  exact (get_assets_ids_lists_ids
           [[("id", VStr "did:op:abc"); ("service", VList [Fixture.metadata_service])];
            [("service", VList [])]]
           {| db := [("did:op:abc", Fixture.sample_asset);
                     ("did:op:anon", VDict [("service", VList [])])];
              calls := [] |}
           eq_refl).
Defined.

(** X6: an answer of [GET /ddo] has status 200 and a JSON body that is the
    serialisation of the listed records, each as [sanitize_record] leaves
    it, as many as the store listed and in the same order; the store is
    asked once. *)
Theorem get_asset_ddos_spec `{Collaborators}
  (w w' : world) (resp : response) :
  get_asset_ddos w = (Ok resp, w') ->
  exists assets assets',
    dao_get_all_listed_assets (db w) = Ok assets /\
    List.Forall2 (fun r r' => exists s, sanitize_record r = Ok (r', s))
                 assets assets' /\
    List.length assets' = List.length assets /\
    json_dumps_default (VList assets') = Ok (body resp) /\
    status resp = 200 /\
    content_type resp = json_content_type /\
    w' = note GetAllListedAssets w.
Proof.
  unfold get_asset_ddos.
  cbv beta iota delta [bind lift ret query_db].
  destruct (dao_get_all_listed_assets (db w)) as [assets|e]; [|discriminate].
  destruct (sanitize_each assets) as [assets'|e] eqn:Hs; [|discriminate].
  destruct (json_dumps_default (VList assets')) as [dumped|e] eqn:Hd;
    [|discriminate].
  intros [= <- <-]. exists assets, assets'.
  pose proof (sanitize_each_ok _ _ Hs) as HF.
  repeat split; auto.
  symmetry. exact (List.Forall2_length HF).
Qed.

Lemma get_asset_ddos_spec_witness :
  exists assets assets',
    dao_get_all_listed_assets (db Fixture.w0) = Ok assets /\
    List.Forall2 (fun r r' => exists s, sanitize_record r = Ok (r', s))
                 assets assets' /\
    List.length assets' = List.length assets /\
    json_dumps_default (VList assets')
    = Ok (body (Response (Fixture.show (VList [Fixture.sample_asset])) 200)) /\
    status (Response (Fixture.show (VList [Fixture.sample_asset])) 200) = 200 /\
    content_type (Response (Fixture.show (VList [Fixture.sample_asset])) 200)
    = json_content_type /\
    note GetAllListedAssets Fixture.w0 = note GetAllListedAssets Fixture.w0.
Proof.
  exact (get_asset_ddos_spec Fixture.w0 _ _ eq_refl).
Defined.

(** X7: [GET /ddo] has no [try] block: one listed record that
    [sanitize_record] cannot handle makes the whole listing raise instead
    of answering. *)
Theorem get_asset_ddos_one_bad_record `{Collaborators}
  (w : world) (assets : list value) (r : value) (e : exn) :
  dao_get_all_listed_assets (db w) = Ok assets ->
  List.In r assets ->
  sanitize_record r = Raise e ->
  exists e', fst (get_asset_ddos w) = Raise e'.
Proof.
  intros Hl Hin Hr. unfold get_asset_ddos.
  cbv beta iota delta [bind lift ret query_db]. rewrite Hl.
  destruct (sanitize_each_raises assets r e Hin Hr) as [e' ->].
  exists e'. reflexivity.
Qed.

Lemma get_asset_ddos_one_bad_record_witness :
  exists e',
    fst (@get_asset_ddos Faulty.collaborators
           (@mk_world Faulty.collaborators Faulty.mixed_db []))
    = Raise e'.
Proof.
  exact (@get_asset_ddos_one_bad_record Faulty.collaborators
           (@mk_world Faulty.collaborators Faulty.mixed_db [])
           [Fixture.sample_asset; VInt 3] (VInt 3)
           (AttributeError "object has no attribute 'pop'")
           eq_refl (or_intror (or_introl eq_refl)) eq_refl).
Defined.

(** ** All routes at once *)

Ltac run_route H :=
  cbv beta iota zeta delta
      [dispatch get_assets_ids get_ddo get_asset_ddos get_metadata es_query_ddo
       validate validate_remote update_ddo_info delist_ddo
       bind lift ret raise assert_ query_db update_db try_except logger_error
       note]
    in H.

(** X9: the status of every answer, route by route: the listings, the
    search and [POST /ddo/validate] answer 200 only; the two lookups 200 or
    404; [POST /ddo/validate-remote] 200 or 400; the two write routes 200,
    401 or 404. *)
Theorem route_statuses `{Collaborators}
  (r : route) (req : request) (w w' : world) (resp : response) :
  dispatch r req w = (Ok resp, w') ->
  match r with
  | GET_root | GET_ddo | POST_ddo_query | POST_ddo_validate =>
      status resp = 200
  | GET_ddo_did _ | GET_metadata_did _ =>
      status resp = 200 \/ status resp = 404
  | POST_ddo_validate_remote =>
      status resp = 200 \/ status resp = 400
  | PUT_ddo_update_did _ | DELETE_ddo_did _ =>
      status resp = 200 \/ status resp = 401 \/ status resp = 404
  end.
Proof.
  intros Hd. destruct r; run_route Hd; crunch; cbn [status jsonify Response
    not_in_oceandb text_response unauthorized]; auto.
Qed.

Lemma route_statuses_witness :
  status (not_in_oceandb "did:op:zzz") = 200 \/
  status (not_in_oceandb "did:op:zzz") = 401 \/
  status (not_in_oceandb "did:op:zzz") = 404.
Proof.
  exact (route_statuses (DELETE_ddo_did "did:op:zzz") Fixture.admin Fixture.w0
           _ _ eq_refl).
Defined.

(** X10: [do_single_update] is only ever called by the two write routes,
    and only on the record the store holds for the DID of the route, a
    record Python takes for true. *)
Theorem do_single_update_only_on_stored_record `{Collaborators}
  (r : route) (req : request) (w : world) (l : list call) (record : value) :
  calls (snd (dispatch r req w)) = (calls w ++ l)%list ->
  List.In (DoSingleUpdate record) l ->
  exists did,
    (r = PUT_ddo_update_did did \/ r = DELETE_ddo_did did) /\
    dao_get did (db w) = Ok record /\
    truthy record = true.
Proof.
  intros Hc Hin.
  destruct (dispatch r req w) as [out w'] eqn:Hd.
  cbn [snd] in Hc.
  destruct r; run_route Hd; crunch; cbn [calls] in Hc;
    repeat rewrite <- List.app_assoc in Hc;
    match type of Hc with
    | calls ?x = _ => rewrite <- (List.app_nil_r (calls x)) in Hc at 1
    | _ => idtac
    end;
    apply List.app_inv_head in Hc; subst l; cbn [List.app List.In] in Hin;
    repeat match goal with
           | H : _ \/ _ |- _ => destruct H
           | H : False |- _ => contradiction
           | H : _ = DoSingleUpdate _ |- _ => inversion H; subst; clear H
           end;
    exists did; repeat split; auto;
    match goal with
    | H : negb (truthy ?x) = false |- truthy ?x = true =>
        now apply negb_false_iff in H
    end.
Qed.

Lemma do_single_update_only_on_stored_record_witness :
  exists did,
    (PUT_ddo_update_did "did:op:abc" = PUT_ddo_update_did did \/
     PUT_ddo_update_did "did:op:abc" = DELETE_ddo_did did) /\
    dao_get did (db Fixture.w0) = Ok Fixture.sample_asset /\
    truthy Fixture.sample_asset = true.
Proof.
  exact (do_single_update_only_on_stored_record
           (PUT_ddo_update_did "did:op:abc") Fixture.local_job Fixture.w0
           [DaoGet "did:op:abc"; NewMetadataUpdater "aquarius_plus";
            DoSingleUpdate Fixture.sample_asset]
           Fixture.sample_asset eq_refl
           (or_intror (or_intror (or_introl eq_refl)))).
Defined.

(** ** More on the write handlers *)

(** X11: from the loopback address, with a non-empty JSON object as body,
    [PUT /ddo/update/<did>] always answers and never raises; it answers 200
    exactly when the store returns a record Python takes for true, the
    updater can be built and [do_single_update] returns. *)
Theorem update_ddo_info_loopback_answers `{Collaborators}
  (did : string) (req : request) (w : world) :
  remote_addr req = "127.0.0.1" ->
  truthy (json req) && isinstance_dict (json req) = true ->
  exists resp,
    fst (update_ddo_info did req w) = Ok resp /\
    (status resp = 200 <->
     exists record updater,
       dao_get did (db w) = Ok record /\
       truthy record = true /\
       MetadataUpdater (db_index ++ "_plus") (db w) = Ok updater /\
       fst (do_single_update updater record (db w)) = Ok tt).
Proof.
  intros Hr Hp. rewrite (update_ddo_info_loopback did req w Hr Hp).
  unfold trigger_reconciliation.
  cbv beta iota delta [bind ret query_db update_db try_except logger_error note].
  simpl.
  destruct (dao_get did (db w)) as [record|e] eqn:Hget; simpl.
  - destruct (truthy record) eqn:Ht; simpl.
    + destruct (MetadataUpdater (db_index ++ "_plus") (db w)) as [updater|e] eqn:Hu;
        simpl.
      * destruct (do_single_update updater record (db w)) as [[[]|e] d] eqn:Hs;
          simpl.
        -- eexists; split; [reflexivity|]. split; [|reflexivity].
           intros _. exists record, updater. rewrite Hs. auto.
        -- eexists; split; [reflexivity|]. split; [discriminate|].
           intros (record' & updater' & Hr' & _ & Hu' & Hs').
           inversion Hr'; subst record'.
           inversion Hu'; subst updater'. rewrite Hs in Hs'. discriminate Hs'.
      * eexists; split; [reflexivity|]. split; [discriminate|].
        intros (record' & updater' & Hr' & _ & Hu' & _).
        discriminate Hu'.
    + eexists; split; [reflexivity|]. split; [discriminate|].
      intros (record' & updater' & Hr' & Ht' & _).
      inversion Hr'; subst record'. congruence.
  - eexists; split; [reflexivity|]. split; [discriminate|].
    intros (record' & updater' & Hr' & _). discriminate Hr'.
Qed.

Lemma update_ddo_info_loopback_answers_witness :
  exists resp,
    fst (update_ddo_info "did:op:abc" Fixture.local_job Fixture.w0) = Ok resp /\
    (status resp = 200 <->
     exists record updater,
       dao_get "did:op:abc" (db Fixture.w0) = Ok record /\
       truthy record = true /\
       MetadataUpdater (db_index ++ "_plus") (db Fixture.w0) = Ok updater /\
       fst (do_single_update updater record (db Fixture.w0)) = Ok tt).
Proof.
  exact (update_ddo_info_loopback_answers "did:op:abc" Fixture.local_job
           Fixture.w0 eq_refl eq_refl).
Defined.

(** X12: when [do_single_update] raises for a request that got through,
    sent from the loopback address or by an authorised administrator from
    anywhere, the update handler still answers, with the plain-text 404
    "<did> asset DID is not in OceanDB" although the record was found; the
    error is logged under the prefix ["get_metadata: "], and whatever
    [do_single_update] had done to the store before raising stays done.
    The delete handler does the same for an authorised administrator. *)
Theorem update_ddo_info_failed_reconciliation `{Collaborators}
  (did : string) (req : request) (w : world)
  (record : value) (updater : Updater) (e : exn) (d : DB) :
  (remote_addr req = "127.0.0.1" /\
   truthy (json req) && isinstance_dict (json req) = true) \/
  (exists data, json req = VDict data /\ admin_authorized data = true) ->
  dao_get did (db w) = Ok record ->
  truthy record = true ->
  MetadataUpdater (db_index ++ "_plus") (db w) = Ok updater ->
  do_single_update updater record (db w) = (Raise e, d) ->
  let failed :=
    (Ok (not_in_oceandb did),
     {| db := d;
        calls := (calls w ++
                  [DaoGet did; NewMetadataUpdater (db_index ++ "_plus");
                   DoSingleUpdate record;
                   LogError ("get_metadata: " ++ str_of_exn e)])%list |}) in
  update_ddo_info did req w = failed /\
  ((exists data, json req = VDict data /\ admin_authorized data = true) ->
   delist_ddo did req w = failed).
Proof.
  intros Hthrough Hget Ht Hu Hs failed.
  pose proof (trigger_reconciliation_failed did w record updater e d Hget Ht Hu Hs)
    as Hfail.
  fold failed in Hfail. split.
  - destruct Hthrough as [[Hr Hp]|(data & Hj & Hauth)].
    + now rewrite (update_ddo_info_loopback did req w Hr Hp).
    + now rewrite (authorized_update_reconciles did req data w Hj Hauth).
  - intros (data & Hj & Hauth).
    now rewrite (authorized_delist_reconciles did req data w Hj Hauth).
Qed.

Lemma update_ddo_info_failed_reconciliation_witness :
  (@update_ddo_info Faulty.collaborators "did:op:abc" Fixture.local_job Faulty.w0
   = (Ok (not_in_oceandb "did:op:abc"),
      @mk_world Faulty.collaborators []
        [DaoGet "did:op:abc"; NewMetadataUpdater "aquarius_plus";
         DoSingleUpdate Fixture.sample_asset;
         LogError "get_metadata: chain unreachable"])) /\
  (@update_ddo_info Faulty.collaborators "did:op:abc" Fixture.admin Faulty.w0
   = (Ok (not_in_oceandb "did:op:abc"),
      @mk_world Faulty.collaborators []
        [DaoGet "did:op:abc"; NewMetadataUpdater "aquarius_plus";
         DoSingleUpdate Fixture.sample_asset;
         LogError "get_metadata: chain unreachable"])) /\
  (@delist_ddo Faulty.collaborators "did:op:abc" Fixture.admin Faulty.w0
   = (Ok (not_in_oceandb "did:op:abc"),
      @mk_world Faulty.collaborators []
        [DaoGet "did:op:abc"; NewMetadataUpdater "aquarius_plus";
         DoSingleUpdate Fixture.sample_asset;
         LogError "get_metadata: chain unreachable"])).
Proof.
  split; [|split].
  - exact (proj1 (@update_ddo_info_failed_reconciliation Faulty.collaborators
             "did:op:abc" Fixture.local_job Faulty.w0 Fixture.sample_asset
             "aquarius_plus" (RuntimeError "chain unreachable") []
             (or_introl (conj eq_refl eq_refl))
             eq_refl eq_refl eq_refl eq_refl)).
  - exact (proj1 (@update_ddo_info_failed_reconciliation Faulty.collaborators
             "did:op:abc" Fixture.admin Faulty.w0 Fixture.sample_asset
             "aquarius_plus" (RuntimeError "chain unreachable") []
             (or_intror (ex_intro _ _ (conj eq_refl eq_refl)))
             eq_refl eq_refl eq_refl eq_refl)).
  - exact (proj2 (@update_ddo_info_failed_reconciliation Faulty.collaborators
             "did:op:abc" Fixture.admin Faulty.w0 Fixture.sample_asset
             "aquarius_plus" (RuntimeError "chain unreachable") []
             (or_intror (ex_intro _ _ (conj eq_refl eq_refl)))
             eq_refl eq_refl eq_refl eq_refl)
           (ex_intro _ _ (conj eq_refl eq_refl))).
Defined.

(** X13: a permitted adminAddress that is not a string never gets a 401
    for a signature that fails to match: once a signer has been recovered,
    [address.lower()] raises AttributeError, with nothing fetched or
    written. *)
Theorem update_ddo_info_non_string_address `{Collaborators}
  (did : string) (req : request) (data : dict) (w : world)
  (address signature : value) (recovered : string) :
  remote_addr req <> "127.0.0.1" ->
  json req = VDict data ->
  dict_get data "adminAddress" = Some address ->
  (forall s, address <> VStr s) ->
  truthy address = true ->
  has_update_request_permission address = true ->
  dict_get data "signature" = Some signature ->
  truthy signature = true ->
  get_signer_address address signature = Some recovered ->
  recovered <> "" ->
  update_ddo_info did req w =
  (Raise (AttributeError "object has no attribute 'lower'"), w).
Proof.
  intros Hr Hj Ha Hns Hta Hp Hs Hts Hg Hrec.
  apply String.eqb_neq in Hr. apply String.eqb_neq in Hrec.
  unfold update_ddo_info. rewrite Hj, Hr.
  assert (Hne : truthy (VDict data) = true).
  { destruct data; [discriminate Ha|reflexivity]. }
  rewrite Hne. cbn [isinstance_dict andb negb py_get].
  cbv beta iota delta [bind lift ret raise assert_].
  rewrite Ha, Hta, Hp, Hs, Hts, Hg. cbn [negb orb truthy].
  rewrite Hrec. cbn [negb].
  destruct address; try reflexivity.
  exfalso. eapply Hns. reflexivity.
Qed.

Lemma update_ddo_info_non_string_address_witness :
  @update_ddo_info Faulty.collaborators "did:op:abc" Faulty.numeric_admin Faulty.w0
  = (Raise (AttributeError "object has no attribute 'lower'"), Faulty.w0).
Proof.
  refine (@update_ddo_info_non_string_address Faulty.collaborators
            "did:op:abc" Faulty.numeric_admin _ Faulty.w0 (VInt 7)
            (VStr "anything") "0xa11ce"
            _ eq_refl eq_refl _ eq_refl eq_refl eq_refl eq_refl eq_refl _);
    discriminate.
Defined.

(** X14: from the loopback address the body of an update only has to be a
    non-empty JSON object: its content is never read, so two such requests
    for the same DID do the same. *)
Theorem update_ddo_info_loopback_ignores_body `{Collaborators}
  (did : string) (req req' : request) (w : world) :
  remote_addr req = "127.0.0.1" ->
  remote_addr req' = "127.0.0.1" ->
  truthy (json req) && isinstance_dict (json req) = true ->
  truthy (json req') && isinstance_dict (json req') = true ->
  update_ddo_info did req w = update_ddo_info did req' w.
Proof.
  intros Hr Hr' Hp Hp'.
  rewrite (update_ddo_info_loopback did req w Hr Hp).
  rewrite (update_ddo_info_loopback did req' w Hr' Hp').
  reflexivity.
Qed.

Lemma update_ddo_info_loopback_ignores_body_witness :
  update_ddo_info "did:op:abc" Fixture.local_job Fixture.w0
  = update_ddo_info "did:op:abc"
      (mk_request "127.0.0.1" (json Fixture.admin)) Fixture.w0.
Proof.
  apply update_ddo_info_loopback_ignores_body; reflexivity.
Defined.

(** ** More on validation and search *)

(** X15: [POST /ddo/validate] validates the body itself, without
    unwrapping: a JSON object gets 200 with [true] or the local validator's
    error list, anything else fails the payload assertion.  The second
    assertion of the handler can never fail, and nothing outside the
    handler is called. *)
Theorem validate_spec `{Collaborators} (req : request) (w : world) :
  validate req w =
  (if isinstance_dict (json req)
   then Ok (if is_valid_dict_local (json req)
            then jsonify (VBool true) 200
            else jsonify (list_errors list_errors_dict_local (json req)) 200)
   else Raise (AssertionError "invalid payload format."),
   w) /\
  fst (validate req w)
  <> Raise (AssertionError "invalid `body` type, should be formatted as a dict.").
Proof.
  unfold validate.
  cbv beta iota delta [bind lift ret raise assert_].
  destruct (isinstance_dict (json req)) eqn:Hd; cbv beta iota.
  - destruct (is_valid_dict_local (json req)); split;
      try reflexivity; discriminate.
  - split; [reflexivity|discriminate].
Qed.

(** X16: when the helper hands back something that is not an object as the
    metadata entry (such as [None] for a DDO without one), the remote
    validator is never consulted and the answer is never 200: the handler
    raises or answers 400, and for [None] it raises TypeError. *)
Theorem validate_remote_non_object_metadata `{Collaborators}
  (req : request) (data : dict) (service metadata : value) (w : world) :
  json req = VDict data ->
  dict_get data "service" = Some service ->
  get_metadata_from_services service = Ok metadata ->
  isinstance_dict metadata = false ->
  ((exists e, validate_remote req w = (Raise e, w)) \/
   validate_remote req w = (Ok invalid_ddo_format, w)) /\
  (metadata = VNone ->
   validate_remote req w = (Raise (TypeError "argument is not iterable"), w)).
Proof.
  intros Hj Hs Hm Hd. unfold validate_remote, invalid_ddo_format. rewrite Hj.
  cbn [isinstance_dict py_contains py_getitem].
  cbv beta iota delta [bind lift ret assert_].
  rewrite (dict_get_mem _ _ _ Hs), Hs. cbn [negb]. cbv beta iota.
  rewrite Hm. split.
  - destruct metadata; try discriminate Hd; cbn [py_contains py_getitem];
      cbv beta iota; eauto.
    + destruct (PyStr.occurs "attributes" s); cbn [negb]; eauto.
    + destruct (existsb _ l); cbn [negb]; eauto.
  - intros ->. reflexivity.
Qed.

Lemma validate_remote_non_object_metadata_witness :
  validate_remote
    (mk_request "203.0.113.7" (VDict [("service", VList [])])) Fixture.w0
  = (Raise (TypeError "argument is not iterable"), Fixture.w0).
Proof.
  exact (proj2 (validate_remote_non_object_metadata
                  (mk_request "203.0.113.7" (VDict [("service", VList [])]))
                  _ _ VNone Fixture.w0 eq_refl eq_refl eq_refl eq_refl)
               eq_refl).
Defined.

(** X17: the data [POST /ddo/query] queries the store with is the body
    with three keys touched: [query] holds the rewritten query, [page] and
    [offset] are there; every other key of the body ([sort] among them) is
    passed on with the caller's value, and none is added. *)
Theorem es_query_ddo_passes_other_keys `{Collaborators}
  (req : request) (data : dict) (escaped : value) (w : world) :
  json req = VDict data ->
  py_contains "query_string"
    (match dict_get data "query" with Some q => q | None => VNone end) = Ok true ->
  json_loads (escape_dids
    (json_dumps (match dict_get data "query" with Some q => q | None => VNone end)))
    = Ok escaped ->
  exists data',
    calls (snd (es_query_ddo req w)) = (calls w ++ [RunEsQuery (VDict data')])%list /\
    dict_get data' "query" = Some escaped /\
    forall k, k <> "query" -> k <> "page" -> k <> "offset" ->
              dict_get data' k = dict_get data k.
Proof.
  intros Hj Hq Hl. exists (query_data data escaped).
  rewrite (es_query_ddo_run req data escaped w Hj Hq Hl).
  split; [reflexivity|]. unfold query_data. split.
  - rewrite !dict_get_setdefault, dict_get_set_same. reflexivity.
  - intros k Hkq Hkp Hko. rewrite !dict_get_setdefault.
    rewrite dict_get_set_other
      by (apply String.eqb_neq; congruence).
    destruct (dict_get data k); [reflexivity|].
    assert (String.eqb "page" k = false) as -> by (apply String.eqb_neq; congruence).
    assert (String.eqb "offset" k = false) as -> by (apply String.eqb_neq; congruence).
    reflexivity.
Qed.

Lemma es_query_ddo_passes_other_keys_witness :
  exists data',
    calls (snd (es_query_ddo Fixture.search Fixture.w0))
    = (calls Fixture.w0 ++ [RunEsQuery (VDict data')])%list /\
    dict_get data' "query" = Some Fixture.sample_query_escaped /\
    forall k, k <> "query" -> k <> "page" -> k <> "offset" ->
              dict_get data' k
              = dict_get [("query", Fixture.sample_query); ("page", VInt 0)] k.
Proof.
  exact (es_query_ddo_passes_other_keys Fixture.search _
           Fixture.sample_query_escaped Fixture.w0 eq_refl eq_refl eq_refl).
Defined.

(** X18: [POST /ddo/query] asks the store at most once and never answers
    without having asked: either the handler raised before the store query,
    leaving the world as it was, or exactly one [run_es_query] call was
    made. *)
Theorem es_query_ddo_one_store_call `{Collaborators}
  (req : request) (w : world) :
  (snd (es_query_ddo req w) = w /\ exists e, fst (es_query_ddo req w) = Raise e)
  \/ exists data, snd (es_query_ddo req w) = note (RunEsQuery data) w.
Proof.
  destruct (es_query_ddo req w) as [out w'] eqn:Hd.
  unfold es_query_ddo in Hd.
  cbv beta iota zeta delta [bind lift ret raise assert_ query_db] in Hd.
  crunch; cbn [fst snd]; eauto.
Qed.

(** X19: the [query_string] check is Python's [in]: a [query] that is a
    JSON string passes it when the text contains ["query_string"], and the
    store is then queried although the query is no object. *)
Theorem es_query_ddo_string_query_passes `{Collaborators}
  (req : request) (data : dict) (text : string) (escaped : value) (w : world) :
  json req = VDict data ->
  dict_get data "query" = Some (VStr text) ->
  PyStr.occurs "query_string" text = true ->
  json_loads (escape_dids (json_dumps (VStr text))) = Ok escaped ->
  calls (snd (es_query_ddo req w))
  = (calls w ++ [RunEsQuery (VDict (query_data data escaped))])%list.
Proof.
  intros Hj Hq Ho Hl.
  rewrite (es_query_ddo_run req data escaped w Hj);
    rewrite ?Hq; cbn [py_contains]; rewrite ?Ho; auto.
Qed.

Lemma es_query_ddo_string_query_passes_witness :
  calls (snd (@es_query_ddo Faulty.collaborators Faulty.string_search Faulty.w0))
  = [RunEsQuery
       (VDict (query_data [("query", VStr "no query_string here")]
                 (VStr (escape_dids (Fixture.show (VStr "no query_string here"))))))].
Proof.
  exact (@es_query_ddo_string_query_passes Faulty.collaborators
           Faulty.string_search _ "no query_string here" _ Faulty.w0
           eq_refl eq_refl eq_refl eq_refl).
Defined.
